(** * Digest-news-telegram-bot: relevance scoring, ranking, store and digest

    A shallow embedding of the decision logic of the bot:
    - [calculate_relevance_score] and [create_comprehensive_ai_digest]
      (multi_source_ai_digest.py),
    - [NewsDatabase.add_article] and friends (src/services/database.py),
    - [DailyDigestBot.collect_and_process_articles] (src/main.py),
    - [DailyDigestBot.create_daily_digest] (src/main.py),
    - [TelegramDigestBot.format_digest_message], [format_short_digest] and
      the format choice of [send_digest] (telegram_bot.py),
    - the source extractors and [fetch_all_ai_sources]
      (multi_source_ai_digest.py) and the link filters (filter_links.py).

    Python [str] values are Rocq strings holding the UTF-8 encoding of the
    text, [int] values are [Z], a raised exception is [None] (or an error
    value), and dictionaries that keep insertion order are association
    lists updated in place.  What the code takes from libraries whose
    behaviour is not spelled out here ([str.lower], [urlparse], the
    extractor, the summarizer, the messaging API) is a parameter. *)

From Stdlib Require Import ZArith List String Ascii Bool Lia DecimalString Sorted.
From stdpp Require Import base list strings gmap.
Import ListNotations.
Local Open Scope string_scope.
Local Open Scope list_scope.
Local Open Scope Z_scope.

(** ** Python string primitives *)

Module Py.

(** Lower-casing of ASCII text: the letters A..Z move to a..z and every
    other byte is left as it is.  [str.lower()] agrees with it on ASCII
    text and goes further on other text (it lowers every cased
    character, by its context for some), so the functions that call
    [lower()] take the lower-casing as a parameter and [lower] below
    serves to run them on ASCII examples. *)
Definition lower_char (c : ascii) : ascii :=
  let n := nat_of_ascii c in
  if ((65 <=? n) && (n <=? 90))%nat then ascii_of_nat (n + 32) else c.

Fixpoint lower (s : string) : string :=
  match s with
  | EmptyString => EmptyString
  | String c rest => String (lower_char c) (lower rest)
  end.

(** [needle in hay]: substring containment. *)
Fixpoint str_in (needle hay : string) : bool :=
  String.prefix needle hay ||
  match hay with
  | EmptyString => false
  | String _ rest => str_in needle rest
  end.

(** [str(n)] for an integer. *)
Definition str_of_int (n : Z) : string :=
  NilZero.string_of_int (Z.to_int n).

(** [len(s)] counts code points: every byte except the continuation
    bytes [10xxxxxx] of a multi-byte character starts one. *)
Definition is_continuation (c : ascii) : bool :=
  let n := nat_of_ascii c in ((128 <=? n) && (n <? 192))%nat.

Fixpoint len (s : string) : Z :=
  match s with
  | EmptyString => 0
  | String c rest => (if is_continuation c then 0 else 1) + len rest
  end.

(** The continuation bytes at the head of [s], and what follows them. *)
Fixpoint skip_continuation (s : string) : string * string :=
  match s with
  | String c rest =>
      if is_continuation c
      then let '(cs, r) := skip_continuation rest in (String c cs, r)
      else (EmptyString, s)
  | EmptyString => (EmptyString, EmptyString)
  end.

(** [s[:k]] for [k >= 0]: the first [k] code points. *)
Fixpoint take_chars (k : nat) (s : string) : string :=
  match k, s with
  | O, _ => EmptyString
  | S k', String c rest =>
      let '(cs, r) := skip_continuation rest in
      String c (cs +:+ take_chars k' r)
  | S _, EmptyString => EmptyString
  end.

Definition slice_to (s : string) (k : Z) : string :=
  take_chars (Z.to_nat k) s.

(** [s.rfind(".")]: the code-point index of the last full stop, or -1. *)
Fixpoint rfind_dot_from (i : Z) (s : string) (last : Z) : Z :=
  match s with
  | EmptyString => last
  | String c rest =>
      if is_continuation c then rfind_dot_from i rest last
      else rfind_dot_from (i + 1) rest
             (if Ascii.eqb c "."%char then i else last)
  end.

Definition rfind_dot (s : string) : Z := rfind_dot_from 0 s (-1).

End Py.

(** ** urllib.parse.urlsplit, network-location part

    The scorer reads [urlparse(article_url).netloc].  The function below
    follows CPython's [urlsplit] on the steps that produce the netloc:
    strip leading C0 controls and spaces, drop tab, CR and LF, cut a
    leading scheme, and, when the rest starts with two slashes, take the
    text up to the first of [/ ? #].  A netloc with an opening bracket
    and no closing one (or the reverse) makes [urlsplit] raise
    [ValueError("Invalid IPv6 URL")]: that is [None] here.  CPython
    rejects more (the address between balanced brackets, characters that
    normalise to a delimiter); the scorer below therefore takes the
    parser as a parameter, its properties hold for any parser, and this
    one serves to run it. *)

Module Urllib.

Definition is_c0_or_space (c : ascii) : bool := (nat_of_ascii c <=? 32)%nat.

Fixpoint lstrip_c0 (s : string) : string :=
  match s with
  | String c rest => if is_c0_or_space c then lstrip_c0 rest else s
  | EmptyString => EmptyString
  end.

Definition is_unsafe (c : ascii) : bool :=
  let n := nat_of_ascii c in ((n =? 9) || (n =? 10) || (n =? 13))%nat.

Fixpoint remove_unsafe (s : string) : string :=
  match s with
  | String c rest =>
      if is_unsafe c then remove_unsafe rest else String c (remove_unsafe rest)
  | EmptyString => EmptyString
  end.

Definition is_alpha (c : ascii) : bool :=
  let n := nat_of_ascii c in
  (((65 <=? n) && (n <=? 90)) || ((97 <=? n) && (n <=? 122)))%nat.

Definition is_scheme_char (c : ascii) : bool :=
  let n := nat_of_ascii c in
  (is_alpha c || ((48 <=? n) && (n <=? 57))
   || (n =? 43) || (n =? 45) || (n =? 46))%nat.

(** The text after the first colon, when only scheme characters come
    before it ([None] when another character or the end comes first). *)
Fixpoint after_scheme (s : string) : option string :=
  match s with
  | EmptyString => None
  | String c rest =>
      if Ascii.eqb c ":"%char then Some rest
      else if is_scheme_char c then after_scheme rest
      else None
  end.

Definition strip_scheme (url : string) : string :=
  match url with
  | String c rest =>
      if is_alpha c then
        match after_scheme rest with
        | Some r => r
        | None => url
        end
      else url
  | EmptyString => url
  end.

Definition is_delim (c : ascii) : bool :=
  Ascii.eqb c "/"%char || Ascii.eqb c "?"%char || Ascii.eqb c "#"%char.

(** [_splitnetloc(url, 2)[0]] once the two slashes are gone. *)
Fixpoint until_delim (s : string) : string :=
  match s with
  | String c rest => if is_delim c then EmptyString else String c (until_delim rest)
  | EmptyString => EmptyString
  end.

Definition netloc (url : string) : option string :=
  let url := remove_unsafe (lstrip_c0 url) in
  let url := strip_scheme url in
  match url with
  | String "/" (String "/" rest) =>
      let nl := until_delim rest in
      let opening := Py.str_in "[" nl in
      let closing := Py.str_in "]" nl in
      if (opening && negb closing) || (closing && negb opening)
      then None
      else Some nl
  | _ => Some EmptyString
  end.

End Urllib.

(** ** multi_source_ai_digest.py: the relevance scorer *)

(** The breakdown is a Python [dict] from label to points.  [dict_set]
    is [d[k] = v]: an existing key keeps its place and takes the new
    value, a new key goes to the end. *)
Definition Breakdown : Type := list (string * Z).

Fixpoint dict_set (d : Breakdown) (k : string) (v : Z) : Breakdown :=
  match d with
  | [] => [(k, v)]
  | (k', v') :: d' =>
      if String.eqb k' k then (k', v) :: d' else (k', v') :: dict_set d' k v
  end.

Fixpoint dict_get (d : Breakdown) (k : string) : option Z :=
  match d with
  | [] => None
  | (k', v') :: d' => if String.eqb k' k then Some v' else dict_get d' k
  end.

(** [sum(d.values())]. *)
Definition sum_values (d : Breakdown) : Z :=
  fold_right (fun kv acc => snd kv + acc) 0 d.

Definition high_value_keywords : list (string * Z) :=
  [ ("openai", 20); ("chatgpt", 20); ("gpt", 15); ("claude", 15);
    ("gemini", 15); ("llm", 12); ("transformer", 12); ("neural", 10);
    ("breakthrough", 15); ("launch", 10); ("release", 8); ("announces", 8) ].

Definition medium_value_keywords : list (string * Z) :=
  [ ("artificial-intelligence", 10); ("machine-learning", 10);
    ("deep-learning", 10); ("automation", 8); ("robot", 8);
    ("algorithm", 6); ("data", 4); ("startup", 5); ("funding", 6);
    ("investment", 6); ("acquisition", 8) ].

Definition ai_companies : list (string * Z) :=
  [ ("google", 10); ("microsoft", 10); ("amazon", 8); ("meta", 8);
    ("facebook", 8); ("nvidia", 12); ("anthropic", 15); ("mistral", 12);
    ("huggingface", 10); ("tesla", 8); ("apple", 8); ("samsung", 6);
    ("intel", 6) ].

Definition tech_terms : list (string * Z) :=
  [ ("model", 4); ("training", 5); ("dataset", 4); ("performance", 4);
    ("research", 5); ("paper", 4); ("study", 4); ("experiment", 4) ].

Definition source_bonus : list (string * Z) :=
  [ ("techcrunch.com", 8); ("wired.com", 10); ("theverge.com", 8);
    ("venturebeat.com", 7); ("technologyreview.com", 12);
    ("arstechnica.com", 9); ("zdnet.com", 6); ("forbes.com", 7);
    ("bloomberg.com", 10) ].

Definition base_ai_score : Z := 5.

(** The running pair [(score, breakdown)] of the function body. *)
Definition ScoreState : Type := (Z * Breakdown)%type.

(** One of the four keyword loops:
    [for keyword, points in table.items():
       if keyword in content_to_analyze:
         score += points; breakdown[f"<category>: {keyword}"] = points]. *)
Fixpoint score_table (category : string) (table : list (string * Z))
    (content_to_analyze : string) (st : ScoreState) : ScoreState :=
  match table with
  | [] => st
  | (keyword, points) :: rest =>
      let st' :=
        if Py.str_in keyword content_to_analyze
        then (fst st + points, dict_set (snd st) (category +:+ keyword) points)
        else st in
      score_table category rest content_to_analyze st'
  end.

(** The source loop, which leaves at the first match ([break]). *)
Fixpoint score_source (table : list (string * Z)) (domain : string)
    (st : ScoreState) : ScoreState :=
  match table with
  | [] => st
  | (source, bonus) :: rest =>
      if Py.str_in source domain
      then (fst st + bonus, dict_set (snd st) ("Source: " +:+ source) bonus)
      else score_source rest domain st
  end.

(** The [if/elif] on the year found in the URL. *)
Definition score_recency (current_year : Z) (article_url : string)
    (st : ScoreState) : ScoreState :=
  if Py.str_in (Py.str_of_int current_year) article_url
  then (fst st + 8, dict_set (snd st) "Current year" 8)
  else if Py.str_in (Py.str_of_int (current_year - 1)) article_url
  then (fst st + 4, dict_set (snd st) "Recent year" 4)
  else st.

Section Scorer.

(** [s.lower()], as Python computes it on the text the string holds.
    The scorer takes it as a parameter: what is proved of it holds for
    Python's Unicode-aware lower-casing, of which [Py.lower] is the
    part that concerns ASCII text. *)
Variable lower : string -> string.

(** [urlparse(url).netloc]; [None] when [urlparse] raises. *)
Variable urlparse_netloc : string -> option string.

(** [calculate_relevance_score(article_url, title)], with the year that
    [datetime.now()] gives passed in.  [None] is the exception that
    [urlparse] raised: nothing in the function catches it. *)
Definition calculate_relevance_score (current_year : Z)
    (article_url title : string) : option (Z * Breakdown) :=
  let st : ScoreState := (0, []) in
  let content_to_analyze := lower (article_url +:+ " " +:+ title) in
  let st := score_table "High-value: " high_value_keywords content_to_analyze st in
  let st := score_table "Medium-value: " medium_value_keywords content_to_analyze st in
  let st := score_table "Company: " ai_companies content_to_analyze st in
  let st := score_table "Tech: " tech_terms content_to_analyze st in
  let st := score_recency current_year article_url st in
  match urlparse_netloc article_url with
  | None => None
  | Some netloc =>
      let domain := lower netloc in
      let st := score_source source_bonus domain st in
      let st := (fst st + base_ai_score,
                 dict_set (snd st) "Base AI relevance" base_ai_score) in
      Some st
  end.

End Scorer.

Example score_openai :
  calculate_relevance_score Py.lower Urllib.netloc 2025
    "https://openai.com/blog/chatgpt-breakthrough-2025" "" =
  Some (83, [("High-value: openai", 20); ("High-value: chatgpt", 20);
             ("High-value: gpt", 15); ("High-value: breakthrough", 15);
             ("Current year", 8); ("Base AI relevance", 5)]).
Proof. vm_compute. reflexivity. Qed.

(** *** The entries a call writes

    Each rule that fires adds its points to the score and writes one
    entry.  [score_entries] lists those entries in evaluation order; the
    lemmas below show that the function returns exactly that list with
    its sum. *)

Definition Entry : Type := (string * Z)%type.

Definition apply_entry (st : ScoreState) (e : Entry) : ScoreState :=
  (fst st + snd e, dict_set (snd st) (fst e) (snd e)).

Definition labelled (category : string) (table : list (string * Z)) : list Entry :=
  map (fun kv => (category +:+ fst kv, snd kv)) table.

Fixpoint fired (category : string) (table : list (string * Z))
    (content : string) : list Entry :=
  match table with
  | [] => []
  | (keyword, points) :: rest =>
      if Py.str_in keyword content
      then (category +:+ keyword, points) :: fired category rest content
      else fired category rest content
  end.

Definition first_source (domain : string) : option (string * Z) :=
  List.find (fun sb => Py.str_in (fst sb) domain) source_bonus.

Definition source_entry (domain : string) : list Entry :=
  match first_source domain with
  | Some (source, bonus) => [("Source: " +:+ source, bonus)]
  | None => []
  end.

Definition recency_entry (current_year : Z) (article_url : string) : list Entry :=
  if Py.str_in (Py.str_of_int current_year) article_url
  then [("Current year", 8)]
  else if Py.str_in (Py.str_of_int (current_year - 1)) article_url
  then [("Recent year", 4)]
  else [].

Definition base_entry : Entry := ("Base AI relevance", base_ai_score).

Definition keyword_entries (content : string) : list Entry :=
  fired "High-value: " high_value_keywords content
  ++ fired "Medium-value: " medium_value_keywords content
  ++ fired "Company: " ai_companies content
  ++ fired "Tech: " tech_terms content.

Definition score_entries (lower : string -> string) (current_year : Z)
    (article_url title netloc : string) : list Entry :=
  keyword_entries (lower (article_url +:+ " " +:+ title))
  ++ recency_entry current_year article_url
  ++ source_entry (lower netloc)
  ++ [base_entry].

(** Every entry any call can write, in evaluation order. *)
Definition all_entries : list Entry :=
  labelled "High-value: " high_value_keywords
  ++ labelled "Medium-value: " medium_value_keywords
  ++ labelled "Company: " ai_companies
  ++ labelled "Tech: " tech_terms
  ++ [("Current year", 8); ("Recent year", 4)]
  ++ labelled "Source: " source_bonus
  ++ [base_entry].

(** The entries of a breakdown whose label starts with ["Source: "]. *)
Definition source_entries (b : Breakdown) : list Entry :=
  List.filter (fun e => String.prefix "Source: " (fst e)) b.

(** ** Lemmas on dictionaries *)

Lemma dict_set_fresh (d : Breakdown) k v :
  k ∉ d.*1 -> dict_set d k v = d ++ [(k, v)].
Proof.
  induction d as [|[k' v'] d IH]; simpl; intros Hk; [reflexivity|].
  apply not_elem_of_cons in Hk as [Hne Hk].
  destruct (String.eqb_spec k' k) as [->|_]; [congruence|].
  now rewrite IH.
Qed.

Lemma sum_values_app (d1 d2 : Breakdown) :
  sum_values (d1 ++ d2) = sum_values d1 + sum_values d2.
Proof.
  induction d1 as [|[k v] d1 IH]; simpl; [reflexivity|].
  unfold sum_values in *. simpl. rewrite IH. lia.
Qed.

Lemma apply_entries_fresh (es : list Entry) : forall s (b : Breakdown),
  NoDup (b.*1 ++ es.*1) ->
  fold_left apply_entry es (s, b) = (s + sum_values es, b ++ es).
Proof.
  induction es as [|[k v] es IH]; intros s b Hnd; simpl.
  - now rewrite Z.add_0_r, app_nil_r.
  - unfold apply_entry at 2. simpl.
    assert (Hk : k ∉ b.*1).
    { apply NoDup_app in Hnd as (_ & Hd & _). intros Hin.
      apply (Hd k Hin). simpl. left. }
    rewrite (dict_set_fresh b k v Hk), IH.
    + unfold sum_values. simpl. f_equal; [lia|].
      now rewrite <- app_assoc.
    + rewrite fmap_app. simpl. rewrite <- app_assoc. exact Hnd.
Qed.

Lemma dict_get_In (d : Breakdown) k v :
  NoDup d.*1 -> In (k, v) d -> dict_get d k = Some v.
Proof.
  induction d as [|[k' v'] d IH]; simpl; intros Hnd Hin; [contradiction|].
  apply NoDup_cons in Hnd as [Hk' Hnd].
  destruct Hin as [Heq|Hin].
  - inversion Heq; subst. now rewrite String.eqb_refl.
  - destruct (String.eqb_spec k' k) as [->|_]; [|now apply IH].
    exfalso. apply Hk'. apply list_elem_of_In.
    change k with (fst (k, v)). now apply in_map.
Qed.

(** ** The scorer writes [score_entries] *)

Lemma score_table_fired category table content : forall st,
  score_table category table content st =
  fold_left apply_entry (fired category table content) st.
Proof.
  induction table as [|[keyword points] rest IH]; intros st; simpl;
    [reflexivity|].
  destruct (Py.str_in keyword content); simpl; now rewrite IH.
Qed.

Lemma score_source_entry domain st :
  score_source source_bonus domain st =
  fold_left apply_entry (source_entry domain) st.
Proof.
  unfold source_entry, first_source.
  induction source_bonus as [|[source bonus] rest IH]; simpl; [reflexivity|].
  destruct (Py.str_in source domain); simpl; [reflexivity|exact IH].
Qed.

Lemma score_recency_entry y url st :
  score_recency y url st = fold_left apply_entry (recency_entry y url) st.
Proof.
  unfold score_recency, recency_entry.
  destruct (Py.str_in (Py.str_of_int y) url); [reflexivity|].
  destruct (Py.str_in (Py.str_of_int (y - 1)) url); reflexivity.
Qed.

Lemma fired_sublist category table content :
  fired category table content `sublist_of` labelled category table.
Proof.
  induction table as [|[keyword points] rest IH]; simpl; [constructor|].
  destruct (Py.str_in keyword content); now constructor.
Qed.

Lemma source_entry_sublist domain :
  source_entry domain `sublist_of` labelled "Source: " source_bonus.
Proof.
  unfold source_entry, first_source.
  induction source_bonus as [|[source bonus] rest IH]; simpl; [constructor|].
  destruct (Py.str_in source domain); simpl.
  - apply sublist_skip. apply sublist_nil_l.
  - now apply sublist_cons.
Qed.

Lemma recency_entry_sublist y url :
  recency_entry y url `sublist_of` [("Current year", 8); ("Recent year", 4)].
Proof.
  unfold recency_entry.
  destruct (Py.str_in (Py.str_of_int y) url).
  - apply sublist_skip, sublist_nil_l.
  - destruct (Py.str_in (Py.str_of_int (y - 1)) url).
    + apply sublist_cons, sublist_skip, sublist_nil_l.
    + apply sublist_nil_l.
Qed.

Lemma score_entries_sublist (lower : string -> string) y url title netloc :
  score_entries lower y url title netloc `sublist_of` all_entries.
Proof.
  unfold score_entries, keyword_entries, all_entries.
  rewrite <- !app_assoc.
  repeat (apply sublist_app; [apply fired_sublist|]).
  apply sublist_app; [apply recency_entry_sublist|].
  apply sublist_app; [apply source_entry_sublist|].
  reflexivity.
Qed.

Lemma all_entries_NoDup : NoDup all_entries.*1.
Proof. apply (bool_decide_unpack _). vm_compute. reflexivity. Qed.

Lemma all_entries_nonneg : Forall (fun e : Entry => 0 <= snd e) all_entries.
Proof. apply (bool_decide_unpack _). vm_compute. reflexivity. Qed.

Lemma score_entries_NoDup (lower : string -> string) y url title netloc :
  NoDup (score_entries lower y url title netloc).*1.
Proof.
  eapply sublist_NoDup; [apply all_entries_NoDup|].
  apply fmap_sublist, score_entries_sublist.
Qed.

Lemma Forall_sublist {A} (P : A -> Prop) (l k : list A) :
  l `sublist_of` k -> Forall P k -> Forall P l.
Proof.
  induction 1 as [|x l k _ IH|x l k _ IH]; intros Hk.
  - constructor.
  - apply Forall_cons in Hk as [Hx Hk]. constructor; auto.
  - apply Forall_cons in Hk as [_ Hk]. auto.
Qed.

Lemma score_entries_nonneg (lower : string -> string) y url title netloc :
  Forall (fun e : Entry => 0 <= snd e) (score_entries lower y url title netloc).
Proof.
  eapply Forall_sublist; [apply score_entries_sublist|].
  apply all_entries_nonneg.
Qed.

Lemma sum_values_nonneg (es : list Entry) :
  Forall (fun e : Entry => 0 <= snd e) es -> 0 <= sum_values es.
Proof.
  induction 1 as [|e es He _ IH]; unfold sum_values in *; simpl; lia.
Qed.

Section ScorerFacts.

Variable lower : string -> string.
Variable urlparse_netloc : string -> option string.

(** The function returns the entries of the rules that fired, and their
    sum, whenever [urlparse] returns. *)
Lemma calculate_relevance_score_entries y url title :
  calculate_relevance_score lower urlparse_netloc y url title =
  match urlparse_netloc url with
  | None => None
  | Some netloc =>
      let es := score_entries lower y url title netloc in
      Some (sum_values es, es)
  end.
Proof.
  unfold calculate_relevance_score.
  destruct (urlparse_netloc url) as [netloc|]; [|reflexivity].
  rewrite !score_table_fired, score_recency_entry, score_source_entry.
  change (fst ?st + base_ai_score, dict_set (snd ?st) "Base AI relevance" base_ai_score)
    with (apply_entry st base_entry).
  set (st0 := ((0, []) : ScoreState)).
  match goal with
  | |- Some ?x = _ =>
      replace x with (fold_left apply_entry (score_entries lower y url title netloc) st0)
  end.
  - unfold st0. rewrite apply_entries_fresh.
    + simpl. reflexivity.
    + simpl. apply score_entries_NoDup.
  - unfold score_entries, keyword_entries.
    rewrite !fold_left_app. reflexivity.
Qed.

End ScorerFacts.

(** ** Properties of the scorer *)

Lemma prefix_append (p s : string) : String.prefix p (p +:+ s) = true.
Proof.
  induction p as [|c p IH]; simpl.
  - now destruct s.
  - destruct (ascii_dec c c) as [_|Hne]; [exact IH|congruence].
Qed.

Lemma source_entries_app (b1 b2 : Breakdown) :
  source_entries (b1 ++ b2) = source_entries b1 ++ source_entries b2.
Proof. apply List.filter_app. Qed.

Lemma fired_not_source category table content :
  (forall k, String.prefix "Source: " (category +:+ k) = false) ->
  source_entries (fired category table content) = [].
Proof.
  intros Hcat.
  induction table as [|[keyword points] rest IH]; simpl; [reflexivity|].
  destruct (Py.str_in keyword content); [|exact IH].
  unfold source_entries in *. cbn [List.filter fst]. now rewrite Hcat.
Qed.

Lemma keyword_entries_not_source content :
  source_entries (keyword_entries content) = [].
Proof.
  unfold keyword_entries.
  rewrite !source_entries_app, !fired_not_source; reflexivity.
Qed.

Lemma recency_entry_not_source y url :
  source_entries (recency_entry y url) = [].
Proof.
  unfold recency_entry.
  destruct (Py.str_in (Py.str_of_int y) url); [reflexivity|].
  destruct (Py.str_in (Py.str_of_int (y - 1)) url); reflexivity.
Qed.

Lemma source_entry_is_source domain :
  source_entries (source_entry domain) = source_entry domain.
Proof.
  unfold source_entry.
  destruct (first_source domain) as [[source bonus]|]; [|reflexivity].
  unfold source_entries. cbn [List.filter fst].
  now rewrite prefix_append.
Qed.

Lemma source_entries_score_entries (lower : string -> string) y url title netloc :
  source_entries (score_entries lower y url title netloc) =
  source_entry (lower netloc).
Proof.
  unfold score_entries.
  rewrite !source_entries_app, keyword_entries_not_source,
    recency_entry_not_source, source_entry_is_source.
  simpl. now rewrite app_nil_r.
Qed.

Lemma base_entry_In (lower : string -> string) y url title netloc :
  In base_entry (score_entries lower y url title netloc).
Proof. unfold score_entries. rewrite !in_app_iff. right. right. right. now left. Qed.

Lemma sum_values_In (es : list Entry) (e : Entry) :
  Forall (fun e : Entry => 0 <= snd e) es -> In e es -> snd e <= sum_values es.
Proof.
  induction 1 as [|e' es He' Hes IH]; simpl; intros Hin; [contradiction|].
  pose proof (sum_values_nonneg es Hes) as Hpos.
  unfold sum_values in *. simpl.
  destruct Hin as [->|Hin]; [lia|]. specialize (IH Hin). lia.
Qed.

(** C1: whatever the parser, the year, the url and the title, the score
    that [calculate_relevance_score] returns is the sum of the values of
    the breakdown it returns. *)
Theorem score_is_sum_of_breakdown
    (lower : string -> string)
    (urlparse_netloc : string -> option string) (current_year : Z)
    (article_url title : string) (score : Z) (breakdown : Breakdown) :
  calculate_relevance_score lower urlparse_netloc current_year article_url title
    = Some (score, breakdown) ->
  score = sum_values breakdown.
Proof.
  rewrite calculate_relevance_score_entries.
  destruct (urlparse_netloc article_url); [|discriminate].
  cbv zeta. intros [= <- <-]. reflexivity.
Qed.

Lemma score_is_sum_of_breakdown_witness :
  calculate_relevance_score Py.lower Urllib.netloc 2025
    "https://www.wired.com/story/openai-launch-2025/" "Google reacts"
    = Some (63, [("High-value: openai", 20); ("High-value: launch", 10);
                 ("Company: google", 10); ("Current year", 8);
                 ("Source: wired.com", 10); ("Base AI relevance", 5)])
  /\ 63 = sum_values
            [("High-value: openai", 20); ("High-value: launch", 10);
             ("Company: google", 10); ("Current year", 8);
             ("Source: wired.com", 10); ("Base AI relevance", 5)].
Proof.
  split; [vm_compute; reflexivity|].
  apply (score_is_sum_of_breakdown Py.lower Urllib.netloc 2025
           "https://www.wired.com/story/openai-launch-2025/" "Google reacts").
  vm_compute. reflexivity.
Defined.

(** C8: the returned score is at least 5, and the breakdown holds the
    entry "Base AI relevance" with value 5, whatever else matched. *)
Theorem score_at_least_base
    (lower : string -> string)
    (urlparse_netloc : string -> option string) (current_year : Z)
    (article_url title : string) (score : Z) (breakdown : Breakdown) :
  calculate_relevance_score lower urlparse_netloc current_year article_url title
    = Some (score, breakdown) ->
  5 <= score /\ dict_get breakdown "Base AI relevance" = Some 5.
Proof.
  rewrite calculate_relevance_score_entries.
  destruct (urlparse_netloc article_url) as [netloc|]; [|discriminate].
  cbv zeta. intros [= <- <-]. split.
  - apply (sum_values_In _ base_entry).
    + apply score_entries_nonneg.
    + apply base_entry_In.
  - apply dict_get_In.
    + apply score_entries_NoDup.
    + apply base_entry_In.
Qed.

Lemma score_at_least_base_witness :
  5 <= 5 /\ dict_get [("Base AI relevance", 5)] "Base AI relevance" = Some 5.
Proof.
  apply (score_at_least_base Py.lower Urllib.netloc 2025 "ftp:plain" "" 5
           [("Base AI relevance", 5)]).
  vm_compute. reflexivity.
Defined.

(** C7: the breakdown holds at most one entry whose label starts with
    "Source: ", and that entry is the one of the first domain of
    [source_bonus], in list order, that occurs in the lower-cased
    netloc; later domains that occur too add nothing. *)
Theorem one_source_entry_first_match
    (lower : string -> string)
    (urlparse_netloc : string -> option string) (current_year : Z)
    (article_url title : string) (score : Z) (breakdown : Breakdown) :
  calculate_relevance_score lower urlparse_netloc current_year article_url title
    = Some (score, breakdown) ->
  (length (source_entries breakdown) <= 1)%nat /\
  exists netloc, urlparse_netloc article_url = Some netloc /\
    source_entries breakdown =
    match List.find (fun sb => Py.str_in (fst sb) (lower netloc)) source_bonus with
    | Some (source, bonus) => [("Source: " +:+ source, bonus)]
    | None => []
    end.
Proof.
  rewrite calculate_relevance_score_entries.
  destruct (urlparse_netloc article_url) as [netloc|]; [|discriminate].
  cbv zeta. intros [= <- <-].
  rewrite source_entries_score_entries. split.
  - unfold source_entry. destruct (first_source _) as [[source bonus]|];
      simpl; lia.
  - exists netloc. split; reflexivity.
Qed.

Lemma one_source_entry_first_match_witness :
  let b := [("Source: techcrunch.com", 8); ("Base AI relevance", 5)] in
  (length (source_entries b) <= 1)%nat /\
  exists netloc,
    Urllib.netloc "https://techcrunch.com.wired.com/x" = Some netloc /\
    source_entries b =
    match List.find (fun sb => Py.str_in (fst sb) (Py.lower netloc)) source_bonus with
    | Some (source, bonus) => [("Source: " +:+ source, bonus)]
    | None => []
    end.
Proof.
  apply (one_source_entry_first_match Py.lower Urllib.netloc 2025
           "https://techcrunch.com.wired.com/x" "" 13).
  vm_compute. reflexivity.
Defined.


(** The claim that the scorer returns for every url fails: the url
    "http://[" has a netloc with an unbalanced bracket, [urlparse] raises
    ValueError and the scorer, which has no handler, raises with it. *)
Lemma score_raises_on_unbalanced_bracket :
  ~ (forall article_url title : string, exists score breakdown,
       calculate_relevance_score Py.lower Urllib.netloc 2025 article_url title
         = Some (score, breakdown)).
Proof.
  intros Htotal. destruct (Htotal "http://[" "") as (score & breakdown & H).
  vm_compute in H. discriminate H.
Qed.

(** C4, amended: the scorer returns exactly when [urlparse] accepts the
    url, and raises what [urlparse] raises otherwise.  When it returns and
    no keyword of the four tables occurs in the text, the score is
    recency bonus + source bonus + 5; the url only decides the source
    bonus through its netloc. *)
Theorem score_defined_iff_url_parsed
    (lower : string -> string)
    (urlparse_netloc : string -> option string) (current_year : Z)
    (article_url title : string) :
  (calculate_relevance_score lower urlparse_netloc current_year article_url title = None
   <-> urlparse_netloc article_url = None) /\
  (forall netloc,
     urlparse_netloc article_url = Some netloc ->
     keyword_entries (lower (article_url +:+ " " +:+ title)) = [] ->
     calculate_relevance_score lower urlparse_netloc current_year article_url title =
     Some (sum_values (recency_entry current_year article_url)
           + sum_values (source_entry (lower netloc)) + 5,
           recency_entry current_year article_url
           ++ source_entry (lower netloc) ++ [base_entry])).
Proof.
  rewrite calculate_relevance_score_entries. split.
  - destruct (urlparse_netloc article_url); split; congruence.
  - intros netloc -> Hkw. cbv zeta. unfold score_entries. rewrite Hkw.
    simpl app. rewrite !sum_values_app.
    change (sum_values [base_entry]) with 5.
    f_equal. f_equal. lia.
Qed.

Lemma score_defined_iff_url_parsed_witness :
  calculate_relevance_score Py.lower Urllib.netloc 2025
    "https://www.wired.com/2025/quiet-week" "" =
  Some (8 + 10 + 5,
        [("Current year", 8); ("Source: wired.com", 10); ("Base AI relevance", 5)]).
Proof.
  apply (proj2 (score_defined_iff_url_parsed Py.lower Urllib.netloc 2025
                  "https://www.wired.com/2025/quiet-week" "") "www.wired.com").
  - vm_compute. reflexivity.
  - vm_compute. reflexivity.
Defined.


(** ** multi_source_ai_digest.py: ranking and top-N selection *)

(** What a source yields: the tuple [(source, url, title)]. *)
Definition Candidate : Type := (string * string * string)%type.

(** The tuple [(source, url, title, score, breakdown)] the digest ranks;
    [sa_score] is its component [x[3]]. *)
Record ScoredArticle : Type := mkScored {
  sa_source : string;
  sa_url : string;
  sa_title : string;
  sa_score : Z;
  sa_breakdown : Breakdown
}.

Definition candidate_of (a : ScoredArticle) : Candidate :=
  (sa_source a, sa_url a, sa_title a).

(** [l[:n]]: the first [n] elements, or all but the last [-n] when [n]
    is negative. *)
Definition list_slice_to {A} (l : list A) (n : Z) : list A :=
  if 0 <=? n then take (Z.to_nat n) l
  else take (Z.to_nat (Z.of_nat (length l) + n)) l.

(** [sorted(l, key=lambda x: x[3], reverse=True)].  Python's sort is
    stable, also with [reverse=True]: elements with equal keys keep their
    input order.  It is written here as an insertion sort that puts an
    element behind the strictly larger ones only. *)
Fixpoint insert_by_score (x : ScoredArticle) (l : list ScoredArticle)
  : list ScoredArticle :=
  match l with
  | [] => [x]
  | y :: l' =>
      if sa_score x <? sa_score y then y :: insert_by_score x l'
      else x :: y :: l'
  end.

Definition sorted_by_score_desc (l : list ScoredArticle) : list ScoredArticle :=
  foldr insert_by_score [] l.

(** [top_articles = sorted(scored_articles, key=..., reverse=True)[:top_n]]. *)
Definition top_articles (scored_articles : list ScoredArticle) (top_n : Z)
  : list ScoredArticle :=
  list_slice_to (sorted_by_score_desc scored_articles) top_n.

Section Digest.

Variable lower : string -> string.
Variable urlparse_netloc : string -> option string.
Variable current_year : Z.

(** The loop that scores every collected tuple and appends the result
    to [scored_articles]; an exception of the scorer ends it. *)
Fixpoint score_all (all_articles : list Candidate) : option (list ScoredArticle) :=
  match all_articles with
  | [] => Some []
  | (source, url, title) :: rest =>
      match calculate_relevance_score lower urlparse_netloc current_year url title with
      | None => None
      | Some (score, breakdown) =>
          match score_all rest with
          | None => None
          | Some scored => Some (mkScored source url title score breakdown :: scored)
          end
      end
  end.

(** [create_comprehensive_ai_digest(top_n)], given what
    [fetch_all_ai_sources()] returned.  What the function prints is left
    out; the printing loop does not change [top_articles]. *)
Definition create_comprehensive_ai_digest (all_articles : list Candidate)
    (top_n : Z) : option (list ScoredArticle) :=
  match all_articles with
  | [] => Some []
  | _ =>
      match score_all all_articles with
      | None => None
      | Some scored_articles => Some (top_articles scored_articles top_n)
      end
  end.

End Digest.

(** ** Properties of the ranking *)

Definition score_ge (a b : ScoredArticle) : Prop := sa_score b <= sa_score a.

Lemma insert_by_score_perm x l : insert_by_score x l ≡ₚ x :: l.
Proof.
  induction l as [|y l IH]; simpl; [reflexivity|].
  destruct (sa_score x <? sa_score y); [|reflexivity].
  rewrite IH. apply Permutation_swap.
Qed.

Lemma sorted_by_score_desc_perm l : sorted_by_score_desc l ≡ₚ l.
Proof.
  induction l as [|x l IH]; simpl; [reflexivity|].
  rewrite insert_by_score_perm. now rewrite IH.
Qed.

Lemma insert_by_score_sorted x l :
  StronglySorted score_ge l -> StronglySorted score_ge (insert_by_score x l).
Proof.
  induction 1 as [|y l Hl IH Hy]; simpl.
  - repeat constructor.
  - destruct (Z.ltb_spec (sa_score x) (sa_score y)) as [Hlt|Hge].
    + constructor; [exact IH|].
      rewrite insert_by_score_perm. constructor; [|exact Hy].
      unfold score_ge. lia.
    + constructor; [now constructor|].
      constructor; [exact Hge|].
      eapply Forall_impl; [exact Hy|].
      unfold score_ge. intros z Hz. lia.
Qed.

Lemma sorted_by_score_desc_sorted l :
  StronglySorted score_ge (sorted_by_score_desc l).
Proof.
  induction l as [|x l IH]; simpl; [constructor|].
  now apply insert_by_score_sorted.
Qed.

(** Stability: the elements of any one score come out in input order. *)
Lemma insert_by_score_stable v x l :
  filter (fun a => sa_score a = v) (insert_by_score x l) =
  filter (fun a => sa_score a = v) (x :: l).
Proof.
  induction l as [|y l IH]; simpl; [reflexivity|].
  destruct (Z.ltb_spec (sa_score x) (sa_score y)) as [Hlt|Hge]; [|reflexivity].
  rewrite filter_cons, IH, !filter_cons.
  repeat case_decide; try reflexivity; lia.
Qed.

Lemma sorted_by_score_desc_stable v l :
  filter (fun a => sa_score a = v) (sorted_by_score_desc l) =
  filter (fun a => sa_score a = v) l.
Proof.
  induction l as [|x l IH]; simpl; [reflexivity|].
  rewrite insert_by_score_stable, !filter_cons, IH. reflexivity.
Qed.

Lemma sorted_by_score_desc_length l :
  length (sorted_by_score_desc l) = length l.
Proof. now rewrite sorted_by_score_desc_perm. Qed.

Lemma StronglySorted_take {A} (R : A -> A -> Prop) n (l : list A) :
  StronglySorted R l -> StronglySorted R (take n l).
Proof.
  intros Hl. revert n. induction Hl as [|x l Hl IH Hx]; intros [|n]; simpl;
    try constructor; auto.
  eapply Forall_sublist; [apply sublist_take|exact Hx].
Qed.

Lemma StronglySorted_app_inv {A} (R : A -> A -> Prop) (l1 l2 : list A) :
  StronglySorted R (l1 ++ l2) ->
  forall a b, In a l1 -> In b l2 -> R a b.
Proof.
  induction l1 as [|x l1 IH]; simpl; intros Hs a b Ha Hb; [contradiction|].
  apply StronglySorted_inv in Hs as [Hs Hx].
  destruct Ha as [->|Ha]; [|now apply IH].
  rewrite Forall_forall in Hx. apply Hx. apply list_elem_of_In.
  apply in_or_app. now right.
Qed.

Lemma list_slice_to_pos {A} (l : list A) n :
  0 < n -> list_slice_to l n = take (Z.to_nat n) l.
Proof.
  intros Hn. unfold list_slice_to.
  destruct (Z.leb_spec 0 n); [reflexivity|lia].
Qed.

(** C2: for a positive [n], the top-N selection returns min(n, number of
    candidates) entries, sorted by score descending, the entries of one
    score in their input order, and they are the best: what is left out
    scores no higher than what is kept.  The empty list gives the empty
    list, also through [create_comprehensive_ai_digest], with no
    exception. *)
Theorem top_articles_sorted_stable_bounded
    (scored_articles : list ScoredArticle) (n : Z) :
  0 < n ->
  Z.of_nat (length (top_articles scored_articles n))
    = Z.min n (Z.of_nat (length scored_articles)) /\
  StronglySorted score_ge (top_articles scored_articles n) /\
  (forall v,
     filter (fun a => sa_score a = v) (top_articles scored_articles n)
     `prefix_of` filter (fun a => sa_score a = v) scored_articles) /\
  (exists rest,
     top_articles scored_articles n ++ rest ≡ₚ scored_articles /\
     forall a b, In a (top_articles scored_articles n) -> In b rest ->
                 sa_score b <= sa_score a) /\
  top_articles [] n = [] /\
  (forall lower urlparse_netloc current_year,
     create_comprehensive_ai_digest lower urlparse_netloc current_year [] n = Some []).
Proof.
  intros Hn. unfold top_articles. rewrite !list_slice_to_pos by exact Hn.
  set (sorted := sorted_by_score_desc scored_articles).
  assert (Hsplit : take (Z.to_nat n) sorted ++ drop (Z.to_nat n) sorted = sorted)
    by apply take_drop.
  repeat split.
  - rewrite length_take. unfold sorted. rewrite sorted_by_score_desc_length. lia.
  - apply StronglySorted_take, sorted_by_score_desc_sorted.
  - intros v. exists (filter (fun a => sa_score a = v) (drop (Z.to_nat n) sorted)).
    rewrite <- filter_app, Hsplit. unfold sorted.
    now rewrite sorted_by_score_desc_stable.
  - exists (drop (Z.to_nat n) sorted). split.
    + rewrite Hsplit. apply sorted_by_score_desc_perm.
    + intros a b Ha Hb.
      apply (StronglySorted_app_inv score_ge _ _
               ltac:(rewrite Hsplit; apply sorted_by_score_desc_sorted) a b Ha Hb).
  - simpl. now rewrite take_nil.
Qed.

Definition article_A : ScoredArticle := mkScored "Wired" "https://a" "" 40 [].
Definition article_B : ScoredArticle := mkScored "ZDNet" "https://b" "" 40 [].
Definition article_C : ScoredArticle := mkScored "Forbes" "https://c" "" 55 [].

Lemma top_articles_sorted_stable_bounded_witness :
  top_articles [article_A; article_B; article_C] 2 = [article_C; article_A]
  /\ Z.of_nat (length (top_articles [article_A; article_B; article_C] 2))
     = Z.min 2 (Z.of_nat (length [article_A; article_B; article_C])).
Proof.
  split; [vm_compute; reflexivity|].
  apply (top_articles_sorted_stable_bounded [article_A; article_B; article_C] 2).
  lia.
Defined.

Example equal_scores_keep_order :
  top_articles [article_A; article_B] 15 = [article_A; article_B].
Proof. vm_compute. reflexivity. Qed.

(** The claim that a url yielded by two sources is kept once fails: both
    tuples are scored and both are in the digest. *)
Lemma digest_keeps_duplicate_url :
  exists first second,
    create_comprehensive_ai_digest Py.lower Urllib.netloc 2025
      [ ("TechCrunch", "https://www.theverge.com/2025/1/2/openai-launch", "");
        ("The Verge", "https://www.theverge.com/2025/1/2/openai-launch", "") ]
      15
    = Some [first; second]
    /\ sa_url first = sa_url second
    /\ sa_source first = "TechCrunch" /\ sa_source second = "The Verge".
Proof. do 2 eexists. vm_compute. repeat split. Qed.

Lemma score_all_keeps_candidates lower urlparse_netloc current_year :
  forall all_articles scored,
  score_all lower urlparse_netloc current_year all_articles = Some scored ->
  candidate_of <$> scored = all_articles.
Proof.
  induction all_articles as [|[[source url] title] rest IH]; simpl; intros scored H.
  - now inversion H.
  - destruct (calculate_relevance_score _ _ _ url title) as [[score breakdown]|];
      [|discriminate].
    destruct (score_all _ _ _ rest) as [scored'|]; [|discriminate].
    inversion H; subst. simpl. unfold candidate_of at 1. simpl.
    f_equal. now apply IH.
Qed.

Lemma score_all_scores lower urlparse_netloc current_year :
  forall all_articles scored,
  score_all lower urlparse_netloc current_year all_articles = Some scored ->
  Forall (fun a : ScoredArticle =>
            calculate_relevance_score lower urlparse_netloc current_year
              (sa_url a) (sa_title a)
            = Some (sa_score a, sa_breakdown a)) scored.
Proof.
  induction all_articles as [|[[source url] title] rest IH]; simpl; intros scored H.
  - inversion H. constructor.
  - destruct (calculate_relevance_score _ _ _ url title) as [[score breakdown]|]
      eqn:Hscore; [|discriminate].
    destruct (score_all _ _ _ rest) as [scored'|]; [|discriminate].
    inversion H; subst. constructor; [exact Hscore|]. now apply IH.
Qed.

(** C3, amended: a collection run does not deduplicate by url before
    scoring.  Every yielded tuple is scored, in the order yielded: the
    scored list has one element per tuple, with the tuple's source, url
    and title and with the score and breakdown that
    [calculate_relevance_score] returns for that url and title, so a url
    yielded twice is scored twice.  The digest is the top-N selection of
    that list and every element of it carries the scorer's result; when
    the tuples number at most [n], the digest holds every tuple, repeated
    urls included, each with its own source. *)
Theorem digest_scores_every_tuple
    (lower : string -> string)
    (urlparse_netloc : string -> option string) (current_year : Z)
    (all_articles : list Candidate) (n : Z) (digest : list ScoredArticle) :
  0 < n ->
  create_comprehensive_ai_digest lower urlparse_netloc current_year all_articles n
    = Some digest ->
  exists scored_articles,
    candidate_of <$> scored_articles = all_articles /\
    Forall (fun a : ScoredArticle =>
              calculate_relevance_score lower urlparse_netloc current_year
                (sa_url a) (sa_title a)
              = Some (sa_score a, sa_breakdown a)) scored_articles /\
    digest = top_articles scored_articles n /\
    Forall (fun a : ScoredArticle =>
              calculate_relevance_score lower urlparse_netloc current_year
                (sa_url a) (sa_title a)
              = Some (sa_score a, sa_breakdown a)) digest /\
    (Z.of_nat (length all_articles) <= n ->
     candidate_of <$> digest ≡ₚ all_articles).
Proof.
  intros Hn Hrun. unfold create_comprehensive_ai_digest in Hrun.
  assert (Hcases : exists scored,
            score_all lower urlparse_netloc current_year all_articles = Some scored /\
            digest = top_articles scored n).
  { destruct all_articles as [|c rest].
    - exists []. split; [reflexivity|].
      inversion Hrun. unfold top_articles. rewrite list_slice_to_pos by exact Hn.
      simpl. now rewrite take_nil.
    - destruct (score_all _ _ _ (c :: rest)) as [scored|]; [|discriminate].
      exists scored. split; [reflexivity|]. now inversion Hrun. }
  destruct Hcases as (scored & Hscored & ->).
  exists scored. pose proof (score_all_keeps_candidates _ _ _ _ _ Hscored) as Hkeep.
  pose proof (score_all_scores _ _ _ _ _ Hscored) as Hall.
  split; [exact Hkeep|]. split; [exact Hall|]. split; [reflexivity|]. split.
  - unfold top_articles. rewrite list_slice_to_pos by exact Hn.
    apply Forall_take.
    eapply Permutation_Forall; [symmetry; apply sorted_by_score_desc_perm|].
    exact Hall.
  - intros Hlen. rewrite <- Hkeep.
    apply fmap_Permutation.
    unfold top_articles. rewrite list_slice_to_pos by exact Hn.
    rewrite take_ge.
    + apply sorted_by_score_desc_perm.
    + rewrite sorted_by_score_desc_length.
      rewrite <- Hkeep, length_fmap in Hlen. lia.
Qed.

Lemma digest_scores_every_tuple_witness :
  exists first second,
    create_comprehensive_ai_digest Py.lower Urllib.netloc 2025
      [ ("TechCrunch", "https://www.theverge.com/2025/1/2/openai-launch", "");
        ("The Verge", "https://www.theverge.com/2025/1/2/openai-launch", "") ]
      15
    = Some [first; second] /\
    Forall (fun a : ScoredArticle =>
              calculate_relevance_score Py.lower Urllib.netloc 2025
                (sa_url a) (sa_title a)
              = Some (sa_score a, sa_breakdown a)) [first; second] /\
    sa_score first = 51 /\ sa_score second = 51.
Proof.
  destruct (create_comprehensive_ai_digest Py.lower Urllib.netloc 2025
      [ ("TechCrunch", "https://www.theverge.com/2025/1/2/openai-launch", "");
        ("The Verge", "https://www.theverge.com/2025/1/2/openai-launch", "") ]
      15) as [digest|] eqn:Hrun; [|vm_compute in Hrun; discriminate Hrun].
  destruct (digest_scores_every_tuple Py.lower Urllib.netloc 2025 _ 15 digest
              ltac:(lia) Hrun) as (scored & _ & _ & _ & Hall & _).
  vm_compute in Hrun.
  destruct digest as [|first [|second [|third rest]]]; try discriminate Hrun.
  exists first, second. split; [reflexivity|]. split; [exact Hall|].
  injection Hrun as <- <-. split; reflexivity.
Defined.


(** ** hashlib.md5

    [hashlib.md5(data).hexdigest()] as RFC 1321 defines it, on a list of
    bytes.  32-bit words are integers kept below 2^32 by [mask32]. *)

Module Hashlib.

Definition mask32 (x : Z) : Z := Z.land x 0xffffffff.

Definition add32 (x y : Z) : Z := mask32 (x + y).

Definition not32 (x : Z) : Z := Z.lxor x 0xffffffff.

Definition rotl32 (x c : Z) : Z :=
  mask32 (Z.lor (Z.shiftl x c) (Z.shiftr x (32 - c))).

Definition shifts : list Z :=
  [ 7; 12; 17; 22; 7; 12; 17; 22; 7; 12; 17; 22; 7; 12; 17; 22;
    5; 9; 14; 20; 5; 9; 14; 20; 5; 9; 14; 20; 5; 9; 14; 20;
    4; 11; 16; 23; 4; 11; 16; 23; 4; 11; 16; 23; 4; 11; 16; 23;
    6; 10; 15; 21; 6; 10; 15; 21; 6; 10; 15; 21; 6; 10; 15; 21 ].

Definition sine_table : list Z :=
  [ 0xd76aa478; 0xe8c7b756; 0x242070db; 0xc1bdceee;
    0xf57c0faf; 0x4787c62a; 0xa8304613; 0xfd469501;
    0x698098d8; 0x8b44f7af; 0xffff5bb1; 0x895cd7be;
    0x6b901122; 0xfd987193; 0xa679438e; 0x49b40821;
    0xf61e2562; 0xc040b340; 0x265e5a51; 0xe9b6c7aa;
    0xd62f105d; 0x02441453; 0xd8a1e681; 0xe7d3fbc8;
    0x21e1cde6; 0xc33707d6; 0xf4d50d87; 0x455a14ed;
    0xa9e3e905; 0xfcefa3f8; 0x676f02d9; 0x8d2a4c8a;
    0xfffa3942; 0x8771f681; 0x6d9d6122; 0xfde5380c;
    0xa4beea44; 0x4bdecfa9; 0xf6bb4b60; 0xbebfbc70;
    0x289b7ec6; 0xeaa127fa; 0xd4ef3085; 0x04881d05;
    0xd9d4d039; 0xe6db99e5; 0x1fa27cf8; 0xc4ac5665;
    0xf4292244; 0x432aff97; 0xab9423a7; 0xfc93a039;
    0x655b59c3; 0x8f0ccc92; 0xffeff47d; 0x85845dd1;
    0x6fa87e4f; 0xfe2ce6e0; 0xa3014314; 0x4e0811a1;
    0xf7537e82; 0xbd3af235; 0x2ad7d2bb; 0xeb86d391 ].

(** The [n] low bytes of [x], least significant first. *)
Definition le_bytes (n : nat) (x : Z) : list Z :=
  map (fun i => Z.land (Z.shiftr x (8 * Z.of_nat i)) 0xff) (seq 0 n).

(** Padding: a 1 bit, zeros up to 56 modulo 64, the bit length on 8 bytes. *)
Definition pad (msg : list Z) : list Z :=
  let len := Z.of_nat (length msg) in
  msg ++ [0x80] ++ repeat 0 (Z.to_nat ((55 - len) mod 64))
      ++ le_bytes 8 ((8 * len) mod 2 ^ 64).

Fixpoint words (bs : list Z) : list Z :=
  match bs with
  | b0 :: b1 :: b2 :: b3 :: rest =>
      Z.lor b0 (Z.lor (Z.shiftl b1 8) (Z.lor (Z.shiftl b2 16) (Z.shiftl b3 24)))
      :: words rest
  | _ => []
  end.

Definition State : Type := (Z * Z * Z * Z)%type.

Definition initial_state : State :=
  (0x67452301, 0xefcdab89, 0x98badcfe, 0x10325476).

Definition step (M : list Z) (st : State) (i : nat) : State :=
  let '(A, B, C, D) := st in
  let '(F, g) :=
    if (i <? 16)%nat then (Z.lor (Z.land B C) (Z.land (not32 B) D), i)
    else if (i <? 32)%nat
    then (Z.lor (Z.land D B) (Z.land (not32 D) C), ((5 * i + 1) mod 16)%nat)
    else if (i <? 48)%nat
    then (Z.lxor B (Z.lxor C D), ((3 * i + 5) mod 16)%nat)
    else (Z.lxor C (Z.lor B (not32 D)), ((7 * i) mod 16)%nat) in
  let F := add32 (add32 (add32 F A) (nth i sine_table 0)) (nth g M 0) in
  (D, add32 B (rotl32 F (nth i shifts 0)), B, C).

Definition block (st : State) (M : list Z) : State :=
  let '(a0, b0, c0, d0) := st in
  let '(a, b, c, d) := fold_left (step M) (seq 0 64) st in
  (add32 a0 a, add32 b0 b, add32 c0 c, add32 d0 d).

Fixpoint blocks (n : nat) (ws : list Z) (st : State) : State :=
  match n with
  | O => st
  | S n' => blocks n' (drop 16 ws) (block st (take 16 ws))
  end.

Definition md5 (msg : list Z) : list Z :=
  let ws := words (pad msg) in
  let '(a, b, c, d) := blocks (length ws / 16) ws initial_state in
  le_bytes 4 a ++ le_bytes 4 b ++ le_bytes 4 c ++ le_bytes 4 d.

Definition hex_digit (n : Z) : ascii :=
  if n <? 10 then ascii_of_nat (Z.to_nat (48 + n))
  else ascii_of_nat (Z.to_nat (87 + n)).

Fixpoint hex (bs : list Z) : string :=
  match bs with
  | [] => EmptyString
  | b :: rest => String (hex_digit (Z.shiftr b 4)) (String (hex_digit (Z.land b 15)) (hex rest))
  end.

(** [s.encode()]: the UTF-8 bytes, which is what the string holds. *)
Definition encode (s : string) : list Z :=
  map (fun c => Z.of_nat (nat_of_ascii c)) (list_ascii_of_string s).

Definition md5_hexdigest (data : list Z) : string := hex (md5 data).

End Hashlib.

Example md5_empty :
  Hashlib.md5_hexdigest (Hashlib.encode "") = "d41d8cd98f00b204e9800998ecf8427e".
Proof. vm_compute. reflexivity. Qed.

Example md5_abc :
  Hashlib.md5_hexdigest (Hashlib.encode "abc") = "900150983cd24fb0d6963f7d28e17f72".
Proof. vm_compute. reflexivity. Qed.

Example md5_two_blocks :
  Hashlib.md5_hexdigest
    (Hashlib.encode "https://techcrunch.com/2025/01/28/chatgpt-everything-to-know-about-the-ai-chatbot/")
  = "04584226bd46c6266f271b7c02c400ec".
Proof. vm_compute. reflexivity. Qed.


(** ** src/services/database.py: the article store *)

(** The dict handed to [add_article].  ['url'] is read with
    [article_data['url']] and is always there; the other keys are read
    with [.get(key, default)], so [None] is an absent key. *)
Record ArticleData : Type := mkArticleData {
  ad_url : string;
  ad_title : option string;
  ad_content : option string;
  ad_summary : option string;
  ad_source : option string;
  ad_relevance_score : option Z;
  ad_word_count : option Z;
  ad_excerpt : option string;
  ad_domain : option string
}.

(** A row of the table [articles]. *)
Record Article : Type := mkArticle {
  row_id : Z;
  row_url : string;
  row_url_hash : string;
  row_title : string;
  row_content : string;
  row_summary : string;
  row_source : string;
  row_relevance_score : Z;
  row_word_count : Z;
  row_excerpt : string;
  row_domain : string;
  row_created_at : Z;
  row_updated_at : Z
}.

(** The database: the rows of [articles] in insertion order, the last
    id that AUTOINCREMENT handed out, and [source_stats], unique on
    (source, date), as a map to (articles_found, articles_processed). *)
Record NewsDatabase : Type := mkDb {
  articles : list Article;
  articles_seq : Z;
  source_stats : gmap (string * string) (Z * Z)
}.

Definition init_database : NewsDatabase := mkDb [] 0 ∅.

(** What [sqlite3] raises in [add_article]: OverflowError when a Python
    int bound to a parameter does not fit SQLite's 64-bit INTEGER,
    OperationalError ("database or disk is full") when AUTOINCREMENT has
    used up the largest rowid, IntegrityError when a UNIQUE constraint
    refuses the row. *)
Inductive DbError : Type :=
| OverflowError
| OperationalError
| IntegrityError.

(** The largest rowid, 2^63 - 1. *)
Definition max_rowid : Z := 9223372036854775807.

(** The integers [sqlite3] binds: those of 64 bits, sign included. *)
Definition fits_int64 (z : Z) : bool :=
  (-9223372036854775808 <=? z) && (z <=? max_rowid).

(** [_generate_url_hash(url)]: [hashlib.md5(url.encode()).hexdigest()]. *)
Definition _generate_url_hash (url : string) : string :=
  Hashlib.md5_hexdigest (Hashlib.encode url).

(** The id AUTOINCREMENT gives to a new row: one more than the largest
    id the table holds (1 on an empty table), and at least one more than
    the largest id it ever handed out. *)
Definition next_id (db : NewsDatabase) : Z :=
  Z.max (articles_seq db + 1)
    match row_id <$> articles db with
    | [] => 1
    | i :: ids => foldr Z.max i ids + 1
    end.

(** The row the INSERT of [add_article] writes: the id from
    AUTOINCREMENT, the values bound to the ten parameters, and
    CURRENT_TIMESTAMP in [created_at] and [updated_at]. *)
Definition new_row (now : Z) (db : NewsDatabase) (article_data : ArticleData)
  : Article :=
  mkArticle (next_id db) (ad_url article_data)
    (_generate_url_hash (ad_url article_data))
    (default "" (ad_title article_data))
    (default "" (ad_content article_data))
    (default "" (ad_summary article_data))
    (default "" (ad_source article_data))
    (default 0 (ad_relevance_score article_data))
    (default 0 (ad_word_count article_data))
    (default "" (ad_excerpt article_data))
    (default "" (ad_domain article_data))
    now now.

(** [add_article(article_data)] at time [now].  The SELECT on
    [url_hash] returns the id of the first row found.  Otherwise the
    INSERT runs: binding the two integers can overflow, the rowids can be
    used up, and the UNIQUE constraint on [url] can refuse the row; an
    exception leaves the store as it was. *)
Definition add_article (now : Z) (db : NewsDatabase) (article_data : ArticleData)
  : DbError + (Z * NewsDatabase) :=
  let url_hash := _generate_url_hash (ad_url article_data) in
  match List.find (fun row => String.eqb (row_url_hash row) url_hash) (articles db) with
  | Some existing => inr (row_id existing, db)
  | None =>
      if negb (fits_int64 (default 0 (ad_relevance_score article_data))
               && fits_int64 (default 0 (ad_word_count article_data)))
      then inl OverflowError
      else if max_rowid <? next_id db then inl OperationalError
      else if existsb (fun row => String.eqb (row_url row) (ad_url article_data))
                (articles db)
      then inl IntegrityError
      else
        let lastrowid := next_id db in
        inr (lastrowid,
             mkDb (articles db ++ [new_row now db article_data]) lastrowid
               (source_stats db))
  end.

(** The UPDATE of one row: [summary] and [updated_at] change where the
    id matches. *)
Definition set_summary (now article_id : Z) (new_summary : string)
    (row : Article) : Article :=
  if row_id row =? article_id
  then mkArticle (row_id row) (row_url row) (row_url_hash row) (row_title row)
         (row_content row) new_summary (row_source row)
         (row_relevance_score row) (row_word_count row) (row_excerpt row)
         (row_domain row) (row_created_at row) now
  else row.

(** [update_article_summary(article_id, summary)] at time [now], for an
    [article_id] that the store returned: a rowid, which fits 64 bits. *)
Definition update_article_summary (now : Z) (db : NewsDatabase)
    (article_id : Z) (new_summary : string) : NewsDatabase :=
  mkDb (set_summary now article_id new_summary <$> articles db)
    (articles_seq db) (source_stats db).

(** [update_source_stats(source, found, processed, date)]:
    INSERT OR REPLACE on the key (source, date). *)
Definition update_source_stats (db : NewsDatabase) (src : string)
    (articles_found articles_processed : Z) (date : string) : NewsDatabase :=
  mkDb (articles db) (articles_seq db)
    (<[(src, date) := (articles_found, articles_processed)]> (source_stats db)).

(** What the schema and [add_article] maintain: every row carries the
    hash of its own url, no two rows share a hash, and no id repeats. *)
Record db_ok (db : NewsDatabase) : Prop := {
  ok_hash : Forall (fun row => row_url_hash row = _generate_url_hash (row_url row)) (articles db);
  ok_unique : NoDup (row_url_hash <$> articles db);
  ok_ids : NoDup (row_id <$> articles db)
}.

(** The INSERT of [article_data] can run: its integers fit 64 bits and
    a rowid is left. *)
Definition can_store (db : NewsDatabase) (article_data : ArticleData) : Prop :=
  fits_int64 (default 0 (ad_relevance_score article_data)) = true /\
  fits_int64 (default 0 (ad_word_count article_data)) = true /\
  next_id db <= max_rowid.

(** The store after the INSERT. *)
Definition with_new_row (now : Z) (db : NewsDatabase) (article_data : ArticleData)
  : NewsDatabase :=
  mkDb (articles db ++ [new_row now db article_data]) (next_id db)
    (source_stats db).

(** ** Properties of the store *)

Lemma find_hash_None h (rows : list Article) :
  List.find (fun row => String.eqb (row_url_hash row) h) rows = None ->
  h ∉ row_url_hash <$> rows.
Proof.
  induction rows as [|r rows IH]; simpl; intros Hfind.
  - apply not_elem_of_nil.
  - destruct (String.eqb_spec (row_url_hash r) h) as [|Hne]; [discriminate|].
    apply not_elem_of_cons. split; [congruence|now apply IH].
Qed.


Lemma find_hash_unique (rows : list Article) (row : Article) :
  NoDup (row_url_hash <$> rows) -> In row rows ->
  List.find (fun r => String.eqb (row_url_hash r) (row_url_hash row)) rows = Some row.
Proof.
  induction rows as [|r rows IH]; simpl; intros Hnd Hin; [contradiction|].
  apply NoDup_cons in Hnd as [Hr Hnd].
  destruct Hin as [->|Hin]; [now rewrite String.eqb_refl|].
  destruct (String.eqb_spec (row_url_hash r) (row_url_hash row)) as [Heq|_];
    [|now apply IH].
  exfalso. apply Hr. rewrite Heq. apply list_elem_of_fmap.
  exists row. split; [reflexivity|now apply list_elem_of_In].
Qed.









(** A url that is stored is found again: same id, same store. *)
Lemma add_article_existing now db data row :
  db_ok db -> In row (articles db) -> row_url row = ad_url data ->
  add_article now db data = inr (row_id row, db).
Proof.
  intros [Hhash Huniq _] Hin Hurl. unfold add_article.
  assert (Hh : _generate_url_hash (ad_url data) = row_url_hash row).
  { rewrite Forall_forall in Hhash.
    rewrite (Hhash row) by now apply list_elem_of_In. now rewrite Hurl. }
  rewrite Hh, (find_hash_unique _ _ Huniq Hin). reflexivity.
Qed.

(** The two ways [add_article] returns. *)
Lemma add_article_inv now db data article_id db' :
  add_article now db data = inr (article_id, db') ->
  (exists existing,
     In existing (articles db) /\
     row_url_hash existing = _generate_url_hash (ad_url data) /\
     article_id = row_id existing /\ db' = db) \/
  ((_generate_url_hash (ad_url data) ∉ row_url_hash <$> articles db) /\
   can_store db data /\
   article_id = next_id db /\ db' = with_new_row now db data).
Proof.
  unfold add_article.
  destruct (List.find _ (articles db)) as [existing|] eqn:Hfind.
  - intros [= <- <-]. left. exists existing.
    apply List.find_some in Hfind as [Hin Heq]. apply String.eqb_eq in Heq. auto.
  - apply find_hash_None in Hfind.
    destruct (fits_int64 (default 0 (ad_relevance_score data))) eqn:Hscore;
      [|discriminate].
    destruct (fits_int64 (default 0 (ad_word_count data))) eqn:Hwords;
      [|discriminate].
    simpl.
    destruct (Z.ltb_spec max_rowid (next_id db)) as [|Hroom]; [discriminate|].
    destruct (existsb _ (articles db)); [discriminate|].
    intros [= <- <-]. right. unfold can_store. auto.
Qed.



Lemma set_summary_keeps now article_id new_summary row :
  row_id (set_summary now article_id new_summary row) = row_id row /\
  row_url (set_summary now article_id new_summary row) = row_url row /\
  row_url_hash (set_summary now article_id new_summary row) = row_url_hash row /\
  row_relevance_score (set_summary now article_id new_summary row)
    = row_relevance_score row.
Proof. unfold set_summary. destruct (row_id row =? article_id); auto. Qed.

Lemma update_article_summary_ok now db article_id new_summary :
  db_ok db -> db_ok (update_article_summary now db article_id new_summary).
Proof.
  intros [Hhash Huniq Hids]. split; simpl.
  - apply Forall_fmap. eapply Forall_impl; [exact Hhash|].
    intros r Hr. simpl.
    destruct (set_summary_keeps now article_id new_summary r) as (_ & -> & -> & _).
    exact Hr.
  - rewrite <- list_fmap_compose.
    erewrite list_fmap_ext; [exact Huniq|].
    intros i r _. apply set_summary_keeps.
  - rewrite <- list_fmap_compose.
    erewrite list_fmap_ext; [exact Hids|].
    intros i r _. apply set_summary_keeps.
Qed.


Definition sample_article : ArticleData :=
  mkArticleData "https://example.com/test-article" (Some "Test Article")
    (Some "This is test content.") None (Some "Test Source") (Some 75)
    None None None.

Definition article_at (u : string) : ArticleData :=
  mkArticleData u None None None None None None None None.

(** A store of two rows. *)
Definition sample_store : NewsDatabase :=
  with_new_row 101 (with_new_row 100 init_database sample_article)
    (article_at "https://example.com/other").



Example add_article_twice :
  exists db',
    add_article 100 init_database sample_article = inr (1, db') /\
    length (articles db') = 1%nat /\
    add_article 200 db'
      (mkArticleData "https://example.com/test-article" (Some "Other title")
         None None None (Some 10) None None None)
    = inr (1, db').
Proof. eexists. vm_compute. repeat split. Qed.

(** An integer of more than 64 bits is refused, on a url not stored
    yet; on a stored url the INSERT does not run and the id comes back. *)
Example add_article_overflow :
  let big := mkArticleData "https://example.com/big" None None None None
               (Some 9223372036854775808) None None None in
  let again := mkArticleData "https://example.com/test-article" None None None
                 None (Some 9223372036854775808) None None None in
  add_article 200 sample_store big = inl OverflowError /\
  add_article 200 sample_store again = inr (1, sample_store).
Proof. vm_compute. split; reflexivity. Qed.

(** *** The key of deduplication *)























(** The four spellings of the claim, told apart on an example. *)
Example url_hash_tells_spellings_apart :
  let h := _generate_url_hash in
  h "https://example.com/ai-news" = "17a276b009cb20d968d75782a1bd5eeb" /\
  h "https://Example.com/AI-News" <> h "https://example.com/ai-news" /\
  h "http://example.com/ai-news" <> h "https://example.com/ai-news" /\
  h "https://example.com/ai-news?utm=x" <> h "https://example.com/ai-news" /\
  h "https://example.com/ai-news/" <> h "https://example.com/ai-news".
Proof. vm_compute. repeat split; discriminate. Qed.


(** ** src/main.py: collecting and processing articles *)

(** What the run does for a candidate beyond scoring it: the calls to
    the extractor, the store and the summarizer, recorded with the
    candidate they are made for. *)
Inductive Action : Type :=
| Extracted
| Stored (article_id : Z)
| Summarized (article_id : Z).

Definition Event : Type := (Candidate * Action)%type.

(** The variables of the loop: the store, [new_articles_count],
    [processed_by_source], and the record of calls made so far. *)
Record RunState : Type := mkRun {
  run_db : NewsDatabase;
  new_articles_count : Z;
  processed_by_source : gmap string Z;
  run_log : list Event
}.

Section Orchestrator.

Variable lower : string -> string.
Variable urlparse_netloc : string -> option string.
Variable current_year : Z.
(** The clock of the store and today's date. *)
Variable now : Z.
Variable today : string.
(** [self.extractor.extract_article(url, source)]: it catches its own
    errors and always returns a dict. *)
Variable extract_article : string -> string -> ArticleData.
(** [self.summarizer.summarize_article(title, content, max_words)]: it
    falls back to an extract of the content and never raises. *)
Variable summarize_article : string -> string -> Z -> string.
Variable summary_max_words : Z.

Definition log_event (st : RunState) (e : Event) : RunState :=
  mkRun (run_db st) (new_articles_count st) (processed_by_source st)
    (run_log st ++ [e]).

Definition count_processed (st : RunState) (src : string) : RunState :=
  mkRun (run_db st) (new_articles_count st)
    (<[src := default 0 (processed_by_source st !! src) + 1]> (processed_by_source st))
    (run_log st).

(** The body of [for source, url, title in all_articles:].  An
    exception inside the [try] is caught and the loop moves on, keeping
    what was done before it. *)
Definition process_article (limit_per_source : Z) (st : RunState)
    (c : Candidate) : RunState :=
  let '(src, article_url, article_title) := c in
  let st :=
    match processed_by_source st !! src with
    | Some _ => st
    | None => mkRun (run_db st) (new_articles_count st)
                (<[src := 0]> (processed_by_source st)) (run_log st)
    end in
  if limit_per_source <=? default 0 (processed_by_source st !! src) then st
  else
    match calculate_relevance_score lower urlparse_netloc current_year
            article_url article_title with
    | None => st
    | Some (score, breakdown) =>
        if score <? 30 then st
        else
          let article_data := extract_article article_url src in
          let st := log_event st (c, Extracted) in
          let article_data :=
            mkArticleData (ad_url article_data) (ad_title article_data)
              (ad_content article_data) (ad_summary article_data)
              (Some src) (Some score) (ad_word_count article_data)
              (ad_excerpt article_data) (ad_domain article_data) in
          match add_article now (run_db st) article_data with
          | inl _ => st
          | inr (article_id, db) =>
              let st := mkRun db (new_articles_count st)
                          (processed_by_source st) (run_log st) in
              let st := log_event st (c, Stored article_id) in
              match ad_content article_data with
              | Some text =>
                  if negb (String.eqb text "") && (100 <? Py.len text)
                  then
                    match ad_title article_data with
                    | None => st
                    | Some t =>
                        let new_summary :=
                          summarize_article t text summary_max_words in
                        let st :=
                          mkRun (update_article_summary now (run_db st)
                                   article_id new_summary)
                            (new_articles_count st + 1)
                            (processed_by_source st) (run_log st) in
                        let st := log_event st (c, Summarized article_id) in
                        count_processed st src
                    end
                  else count_processed st src
              | None => count_processed st src
              end
          end
    end.

(** [collect_and_process_articles(limit_per_source)], given what
    [fetch_all_ai_sources()] returned: the count returned, the store
    after the source statistics are written, and the record of calls. *)
Definition collect_and_process_articles (db : NewsDatabase)
    (all_articles : list Candidate) (limit_per_source : Z)
  : Z * NewsDatabase * list Event :=
  match all_articles with
  | [] => (0, db, [])
  | _ =>
      let st := fold_left (process_article limit_per_source) all_articles
                  (mkRun db 0 ∅ []) in
      let db := map_fold (fun src count db =>
                            update_source_stats db src count count today)
                  (run_db st) (processed_by_source st) in
      (new_articles_count st, db, run_log st)
  end.

End Orchestrator.

(** ** Properties of the collection run *)

Section OrchestratorFacts.

Variable lower : string -> string.
Variable urlparse_netloc : string -> option string.
Variable current_year : Z.
Variable now : Z.
Variable today : string.
Variable extract_article : string -> string -> ArticleData.
Variable summarize_article : string -> string -> Z -> string.
Variable summary_max_words : Z.

Local Abbreviation process :=
  (process_article lower urlparse_netloc current_year now extract_article
     summarize_article summary_max_words).

(** The candidate cleared the threshold. *)
Definition clears_threshold (c : Candidate) : Prop :=
  exists score breakdown,
    calculate_relevance_score lower urlparse_netloc current_year (snd (fst c)) (snd c)
      = Some (score, breakdown)
    /\ 30 <= score.

Definition log_ok (all_articles : list Candidate) (log : list Event) : Prop :=
  forall c act, In (c, act) log -> In c all_articles /\ clears_threshold c.

(** Rows are those of the store the run started from, or were stored
    with a score of 30 or more. *)
Definition rows_ok (ids0 : list Z) (db : NewsDatabase) : Prop :=
  Forall (fun row => row_id row ∈ ids0 \/ 30 <= row_relevance_score row)
    (articles db).

Lemma log_ok_snoc all_articles log c act :
  log_ok all_articles log -> In c all_articles -> clears_threshold c ->
  log_ok all_articles (log ++ [(c, act)]).
Proof.
  intros Hlog Hin Hadm c' act' Hin'.
  apply in_app_or in Hin' as [Hin'|[Heq|[]]]; [exact (Hlog c' act' Hin')|].
  inversion Heq; subst. now split.
Qed.

Lemma add_article_rows_ok ids0 t db data article_id db' score :
  rows_ok ids0 db -> ad_relevance_score data = Some score -> 30 <= score ->
  add_article t db data = inr (article_id, db') -> rows_ok ids0 db'.
Proof.
  unfold rows_ok. intros Hrows Hscore Hge Hadd.
  apply add_article_inv in Hadd as [(_ & _ & _ & _ & ->)|(_ & _ & _ & ->)];
    [exact Hrows|].
  simpl. apply Forall_app. split; [exact Hrows|].
  constructor; [|constructor]. right. simpl. now rewrite Hscore.
Qed.

Lemma update_article_summary_rows_ok ids0 t db article_id new_summary :
  rows_ok ids0 db ->
  rows_ok ids0 (update_article_summary t db article_id new_summary).
Proof.
  unfold rows_ok. simpl. intros Hrows. apply Forall_fmap.
  eapply Forall_impl; [exact Hrows|]. intros row Hrow. simpl.
  destruct (set_summary_keeps t article_id new_summary row)
    as (-> & _ & _ & ->).
  exact Hrow.
Qed.

Definition run_ok (all_articles : list Candidate) (ids0 : list Z)
    (st : RunState) : Prop :=
  log_ok all_articles (run_log st) /\ rows_ok ids0 (run_db st).

Lemma process_article_ok all_articles ids0 limit st c :
  In c all_articles -> run_ok all_articles ids0 st ->
  run_ok all_articles ids0 (process limit st c).
Proof.
  intros Hin [Hlog Hrows]. destruct c as [[src article_url] article_title].
  unfold process_article.
  set (st1 := match processed_by_source st !! src with
              | Some _ => st
              | None => _
              end).
  assert (Hst1 : run_log st1 = run_log st /\ run_db st1 = run_db st).
  { unfold st1. destruct (processed_by_source st !! src); auto. }
  destruct Hst1 as [Hl1 Hd1].
  assert (Hok1 : run_ok all_articles ids0 st1).
  { split; [now rewrite Hl1|now rewrite Hd1]. }
  clearbody st1. clear Hl1 Hd1 Hlog Hrows.
  destruct Hok1 as [Hlog Hrows].
  destruct (limit <=? _); [now split|].
  destruct (calculate_relevance_score _ _ _ article_url article_title)
    as [[score breakdown]|] eqn:Hscore; [|now split].
  destruct (Z.ltb_spec score 30) as [|Hge]; [now split|].
  assert (Hadm : clears_threshold (src, article_url, article_title)).
  { exists score, breakdown. now split. }
  cbv zeta.
  destruct (add_article _ _ _) as [err|[article_id db]] eqn:Hadd.
  - split; simpl; [now apply log_ok_snoc|exact Hrows].
  - simpl in Hadd.
    assert (Hrows' : rows_ok ids0 db).
    { eapply add_article_rows_ok; [exact Hrows| |exact Hge|exact Hadd].
      reflexivity. }
    assert (Hlog' : log_ok all_articles
              ((run_log st1 ++ [(src, article_url, article_title, Extracted)])
               ++ [(src, article_url, article_title, Stored article_id)])).
    { repeat apply log_ok_snoc; auto. }
    cbn [ad_content ad_title].
    destruct (ad_content (extract_article article_url src)) as [text|];
      [|now split].
    destruct (negb (String.eqb text "") && (100 <? Py.len text));
      [|now split].
    destruct (ad_title (extract_article article_url src)) as [t|];
      [|now split].
    split; simpl.
    + now apply log_ok_snoc.
    + now apply update_article_summary_rows_ok.
Qed.

Lemma fold_process_ok all_articles ids0 limit :
  forall cs st,
  (forall c, In c cs -> In c all_articles) ->
  run_ok all_articles ids0 st ->
  run_ok all_articles ids0 (fold_left (process limit) cs st).
Proof.
  induction cs as [|c cs IH]; intros st Hsub Hok; simpl; [exact Hok|].
  apply IH.
  - intros c' Hc'. apply Hsub. now right.
  - apply process_article_ok; [apply Hsub; now left|exact Hok].
Qed.

Lemma source_stats_keep_articles (db : NewsDatabase) (counts : gmap string Z) :
  articles (map_fold (fun src count db =>
                        update_source_stats db src count count today) db counts)
  = articles db.
Proof.
  apply (map_fold_weak_ind (fun r _ => articles r = articles db)); auto.
Qed.

(** A candidate below the threshold leaves the store, the counter and
    the record of calls as they were. *)
Lemma process_article_skips_low limit st src article_url article_title
    score breakdown :
  calculate_relevance_score lower urlparse_netloc current_year article_url article_title
    = Some (score, breakdown) ->
  score < 30 ->
  let st' := process limit st (src, article_url, article_title) in
  run_db st' = run_db st /\ run_log st' = run_log st /\
  new_articles_count st' = new_articles_count st.
Proof.
  intros Hscore Hlow. cbv zeta. unfold process_article. rewrite Hscore.
  destruct (Z.ltb_spec score 30) as [_|]; [|lia].
  destruct (processed_by_source st !! src); simpl;
    destruct (limit <=? _); auto.
Qed.

End OrchestratorFacts.

(** C5: in a collection run the extractor, the store and the summarizer
    are called only for candidates whose score is 30 or more.  Every
    recorded call belongs to a collected candidate that scored at least
    30; a candidate that scored less has no call at all and leaves the
    store untouched; and every row the run added to the store carries a
    relevance score of at least 30. *)
Theorem only_scores_of_30_reach_the_pipeline
    (lower : string -> string)
    (urlparse_netloc : string -> option string) (current_year now : Z)
    (today : string) (extract_article : string -> string -> ArticleData)
    (summarize_article : string -> string -> Z -> string)
    (summary_max_words : Z) (db : NewsDatabase)
    (all_articles : list Candidate) (limit_per_source : Z)
    (count : Z) (db' : NewsDatabase) (log : list Event) :
  collect_and_process_articles lower urlparse_netloc current_year now today
    extract_article summarize_article summary_max_words db all_articles
    limit_per_source = (count, db', log) ->
  (forall c act, In (c, act) log ->
     In c all_articles /\ clears_threshold lower urlparse_netloc current_year c) /\
  (forall src article_url article_title score breakdown act,
     calculate_relevance_score lower urlparse_netloc current_year
       article_url article_title = Some (score, breakdown) ->
     score < 30 ->
     ~ In ((src, article_url, article_title), act) log) /\
  Forall (fun row => row_id row ∈ (row_id <$> articles db)
                     \/ 30 <= row_relevance_score row) (articles db').
Proof.
  intros Hrun.
  assert (Hok : log_ok lower urlparse_netloc current_year all_articles log /\
                rows_ok (row_id <$> articles db) db').
  { unfold collect_and_process_articles in Hrun.
    destruct all_articles as [|c cs].
    - inversion Hrun; subst. split; [intros c act []|].
      unfold rows_ok. apply Forall_forall. intros row Hrow. left.
      apply list_elem_of_fmap. now exists row.
    - set (st := fold_left _ (c :: cs) _) in Hrun.
      assert (Hst : run_ok lower urlparse_netloc current_year (c :: cs)
                      (row_id <$> articles db) st).
      { apply fold_process_ok; [auto|]. split; simpl; [intros c' act []|].
        unfold rows_ok. apply Forall_forall. intros row Hrow. left.
        apply list_elem_of_fmap. now exists row. }
      destruct Hst as [Hlog Hrows]. inversion Hrun; subst.
      split; [exact Hlog|].
      unfold rows_ok. now rewrite source_stats_keep_articles. }
  destruct Hok as [Hlog Hrows]. split; [exact Hlog|]. split; [|exact Hrows].
  intros src article_url article_title score breakdown act Hscore Hlow Hin.
  destruct (Hlog _ _ Hin) as (_ & score' & breakdown' & Hscore' & Hge).
  simpl in Hscore'. rewrite Hscore in Hscore'. inversion Hscore'; subst. lia.
Qed.

(** A run on two candidates, with an extractor that returns a fixed
    text and a summarizer that returns a fixed summary. *)
Definition sample_extract (article_url src : string) : ArticleData :=
  mkArticleData article_url (Some "OpenAI launches a model")
    (Some "OpenAI has released a new model today. It answers faster, costs less to run and is available to every developer from this week on.")
    None None None (Some 24) None None.

Definition sample_summarize (t text : string) (max_words : Z) : string :=
  "OpenAI released a new model.".

Definition sample_high : Candidate :=
  ("Wired", "https://www.wired.com/story/openai-chatgpt-launch-2025/", "").

Definition sample_low : Candidate :=
  ("Wired", "https://www.wired.com/story/a-quiet-week/", "").

Definition sample_run : Z * NewsDatabase * list Event :=
  collect_and_process_articles Py.lower Urllib.netloc 2025 0 "2025-03-01"
    sample_extract sample_summarize 100 init_database
    [sample_low; sample_high] 10.

Lemma only_scores_of_30_reach_the_pipeline_witness :
  snd sample_run
    = [(sample_high, Extracted); (sample_high, Stored 1); (sample_high, Summarized 1)]
  /\ (In sample_high [sample_low; sample_high]
      /\ clears_threshold Py.lower Urllib.netloc 2025 sample_high).
Proof.
  assert (Hlog : snd sample_run
    = [(sample_high, Extracted); (sample_high, Stored 1); (sample_high, Summarized 1)])
    by (vm_compute; reflexivity).
  split; [exact Hlog|].
  destruct sample_run as [[count db'] log] eqn:Hrun. simpl in Hlog.
  apply (proj1 (only_scores_of_30_reach_the_pipeline _ _ _ _ _ _ _ _ _ _ _ _ _ _ Hrun)
           sample_high Extracted).
  rewrite Hlog. now left.
Defined.


(** ** telegram_bot.py: the digest message *)

(** An article dict as the formatter reads it, with [.get(key, default)]:
    [None] is an absent key. *)
Record DigestArticle : Type := mkDigestArticle {
  da_title : option string;
  da_summary : option string;
  da_url : option string;
  da_source : option string;
  da_relevance_score : option Z
}.

Definition nl : string := String (ascii_of_nat 10) EmptyString.

(** [if not date: date = datetime.now().strftime('%Y-%m-%d')]. *)
Definition date_or_today (today : string) (date : option string) : string :=
  match date with
  | Some d => if String.eqb d "" then today else d
  | None => today
  end.

(** [len(set(a.get('source', '') for a in articles))]. *)
Definition count_sources (articles : list DigestArticle) : Z :=
  Z.of_nat (length (remove_dups ((fun a => default "" (da_source a)) <$> articles))).

(** The two lines that close both formats. *)
Definition footer : string :=
  "@LetsTalkAI" +:+ nl +:+
  "#AI #ИИ #OpenAI #Google #ChatGPT #TechNews #ИскусственныйИнтеллект".

Definition long_header (date : string) (articles : list DigestArticle) : string :=
  "🤖 **Дайджест новостей ИИ - " +:+ date +:+ "**" +:+ nl +:+
  "🚀 _Будущее уже здесь: главные события в мире искусственного интеллекта_" +:+ nl +:+
  "📊 Топ " +:+ Py.str_of_int (Z.of_nat (length articles)) +:+ " новостей из " +:+
  Py.str_of_int (count_sources articles) +:+ " источников" +:+ nl +:+ nl.

(** What one turn of the loop of [format_digest_message] appends. *)
Definition long_item (i : Z) (article : DigestArticle) : string :=
  let title := default "Без заголовка" (da_title article) in
  let summary := default "Резюме недоступно" (da_summary article) in
  let url := default "" (da_url article) in
  let source := default "Неизвестно" (da_source article) in
  let score := default 0 (da_relevance_score article) in
  let title :=
    if 60 <? Py.len title then Py.slice_to title 57 +:+ "..." else title in
  let summary :=
    if 150 <? Py.len summary then Py.slice_to summary 147 +:+ "..." else summary in
  "**" +:+ Py.str_of_int i +:+ ". " +:+ title +:+ "**" +:+ nl +:+
  "📰 _" +:+ source +:+ "_ • Рейтинг: " +:+ Py.str_of_int score +:+ nl +:+
  "📝 " +:+ summary +:+ nl +:+
  "🔗 [Читать полностью](" +:+ url +:+ ")" +:+ nl +:+ nl.

Definition short_header (date : string) : string :=
  "🤖 **Дайджест ИИ - " +:+ date +:+ "**" +:+ nl +:+
  "📈 _Самые важные новости искусственного интеллекта за сегодня_" +:+ nl +:+ nl.

(** What one turn of the loop of [format_short_digest] appends. *)
Definition short_item (i : Z) (article : DigestArticle) : string :=
  let title := default "Без заголовка" (da_title article) in
  let summary := default "Резюме недоступно" (da_summary article) in
  let url := default "" (da_url article) in
  let source := default "Неизвестно" (da_source article) in
  let title :=
    if 45 <? Py.len title then Py.slice_to title 42 +:+ "..." else title in
  let enhanced_summary :=
    if 120 <? Py.len summary then
      let truncated := Py.slice_to summary 120 in
      let last_period := Py.rfind_dot truncated in
      if 80 <? last_period then Py.slice_to summary (last_period + 1)
      else truncated +:+ "..."
    else summary in
  "**" +:+ Py.str_of_int i +:+ ". " +:+ title +:+ "**" +:+ nl +:+
  "📰 _" +:+ source +:+ "_ • " +:+ enhanced_summary +:+ nl +:+
  "🔗 [Читать](" +:+ url +:+ ")" +:+ nl +:+ nl.

(** [for i, article in enumerate(shown, i): message += item(i, article)]. *)
Fixpoint append_items (item : Z -> DigestArticle -> string) (i : Z)
    (shown : list DigestArticle) (message : string) : string :=
  match shown with
  | [] => message
  | article :: rest => append_items item (i + 1) rest (message +:+ item i article)
  end.

(** [format_digest_message(articles, date)]. *)
Definition format_digest_message (today : string)
    (articles : list DigestArticle) (date : option string) : string :=
  let date := date_or_today today date in
  let message := long_header date articles in
  let message := append_items long_item 1 (list_slice_to articles 10) message in
  message +:+ footer.

(** [format_short_digest(articles, date)]. *)
Definition format_short_digest (today : string)
    (articles : list DigestArticle) (date : option string) : string :=
  let date := date_or_today today date in
  let message := short_header date in
  let message := append_items short_item 1 (list_slice_to articles 8) message in
  message +:+ footer.

(** The text [send_digest(articles, use_short_format, date)] posts: the
    requested format, replaced by the short one when longer than 3800
    characters. *)
Definition send_digest_message (today : string)
    (articles : list DigestArticle) (use_short_format : bool)
    (date : option string) : string :=
  let message :=
    if use_short_format then format_short_digest today articles date
    else format_digest_message today articles date in
  if 3800 <? Py.len message then format_short_digest today articles date
  else message.

Definition sample_digest_articles : list DigestArticle :=
  [ mkDigestArticle (Some "OpenAI Unveils ChatGPT Agent")
      (Some "OpenAI has announced a new ChatGPT agent that can autonomously use your email and web applications, marking a significant step forward in AI automation.")
      (Some "https://example.com/article1") (Some "TechCrunch") (Some 85);
    mkDigestArticle (Some "Google Launches New AI Model")
      (Some "Google has released Gemini 2.0, featuring improved reasoning capabilities and faster processing speeds.")
      (Some "https://example.com/article2") (Some "The Verge") (Some 80) ].

Example format_digest_message_sample :
  let message :=
    format_digest_message "2025-03-02" sample_digest_articles (Some "2025-03-01") in
  Py.len message = 716 /\
  String.length message = 914%nat /\
  Hashlib.md5_hexdigest (Hashlib.encode message) = "19aee4d8d45aab25362b38b35c66d626".
Proof. vm_compute. repeat split. Qed.

Definition sample_russian_articles : list DigestArticle :=
  [ mkDigestArticle (Some "Компания OpenAI представила нового агента ChatGPT для всех")
      (Some "Компания OpenAI объявила о выпуске нового агента. Он умеет самостоятельно работать с почтой и сайтами. Это большой шаг вперёд для автоматизации.")
      None (Some "TechCrunch") None;
    mkDigestArticle None
      (Some "Google выпустила Gemini 2.0 с улучшенными возможностями рассуждения и более высокой скоростью обработки запросов пользователей по всему миру")
      None None None ]
  ++ ((fun i => mkDigestArticle (Some ("t" +:+ Py.str_of_int i)) None None None None)
        <$> [0; 1; 2; 3; 4; 5; 6; 7; 8]).

Example format_short_digest_sample :
  let message :=
    format_short_digest "2025-03-02" sample_russian_articles (Some "2025-03-01") in
  Py.len message = 889 /\
  String.length message = 1472%nat /\
  Hashlib.md5_hexdigest (Hashlib.encode message) = "09adbb5f0eb6cc063f11bf310be81621".
Proof. vm_compute. repeat split. Qed.

(** ** Properties of the digest message *)

(** The blocks the loop appends, one per article shown, ranks from [i]. *)
Fixpoint items_from (item : Z -> DigestArticle -> string) (i : Z)
    (shown : list DigestArticle) : list string :=
  match shown with
  | [] => []
  | article :: rest => item i article :: items_from item (i + 1) rest
  end.

Lemma append_nil_r (s : string) : s +:+ "" = s.
Proof.
  induction s as [|c s IH]; [reflexivity|].
  change (String c (s +:+ "") = String c s). now f_equal.
Qed.

Lemma append_assoc (s1 s2 s3 : string) : (s1 +:+ s2) +:+ s3 = s1 +:+ (s2 +:+ s3).
Proof.
  induction s1 as [|c s1 IH]; [reflexivity|].
  change (String c ((s1 +:+ s2) +:+ s3) = String c (s1 +:+ (s2 +:+ s3))).
  now f_equal.
Qed.

Lemma concat_cons (x : string) (l : list string) :
  String.concat "" (x :: l) = x +:+ String.concat "" l.
Proof.
  destruct l as [|y l]; [|reflexivity].
  change (x = x +:+ ""). symmetry. apply append_nil_r.
Qed.

Lemma append_items_concat item : forall shown i message,
  append_items item i shown message
  = message +:+ String.concat "" (items_from item i shown).
Proof.
  induction shown as [|article rest IH]; intros i message.
  - simpl. now rewrite append_nil_r.
  - cbn [append_items items_from]. rewrite IH, concat_cons.
    now rewrite append_assoc.
Qed.

Lemma items_from_length item : forall shown i,
  length (items_from item i shown) = length shown.
Proof.
  induction shown as [|article rest IH]; intros i; simpl; [reflexivity|].
  now rewrite IH.
Qed.

Lemma list_slice_to_take {A} (l : list A) (n : nat) :
  list_slice_to l (Z.of_nat n) = take n l.
Proof.
  unfold list_slice_to. destruct (Z.leb_spec 0 (Z.of_nat n)); [|lia].
  now rewrite Nat2Z.id.
Qed.

(** The articles a format renders, as blocks of text. *)
Definition long_items (articles : list DigestArticle) : list string :=
  items_from long_item 1 (take 10 articles).

Definition short_items (articles : list DigestArticle) : list string :=
  items_from short_item 1 (take 8 articles).

Lemma format_digest_message_items today articles date :
  format_digest_message today articles date
  = long_header (date_or_today today date) articles
    +:+ String.concat "" (long_items articles) +:+ footer.
Proof.
  unfold format_digest_message, long_items.
  change 10 with (Z.of_nat 10). rewrite list_slice_to_take.
  now rewrite append_items_concat, append_assoc.
Qed.

Lemma format_short_digest_items today articles date :
  format_short_digest today articles date
  = short_header (date_or_today today date)
    +:+ String.concat "" (short_items articles) +:+ footer.
Proof.
  unfold format_short_digest, short_items.
  change 8 with (Z.of_nat 8). rewrite list_slice_to_take.
  now rewrite append_items_concat, append_assoc.
Qed.

(** C9: whatever list is passed in, the long format is its header, one
    block for each of the first min(10, n) articles, ranked from 1, and
    the footer; the short format the same with the first min(8, n).
    Articles after the tenth (eighth) are not rendered, and the message
    [send_digest] posts is one of the two, so it shows ten at most. *)
Theorem digest_renders_at_most_ten
    (today : string) (articles : list DigestArticle) (date : option string) :
  (format_digest_message today articles date
   = long_header (date_or_today today date) articles
     +:+ String.concat "" (items_from long_item 1 (take 10 articles))
     +:+ footer
   /\ length (items_from long_item 1 (take 10 articles))
      = Nat.min 10 (length articles)) /\
  (format_short_digest today articles date
   = short_header (date_or_today today date)
     +:+ String.concat "" (items_from short_item 1 (take 8 articles))
     +:+ footer
   /\ length (items_from short_item 1 (take 8 articles))
      = Nat.min 8 (length articles)) /\
  (forall use_short_format,
     exists header items,
       send_digest_message today articles use_short_format date
       = header +:+ String.concat "" items +:+ footer
       /\ (length items <= 10)%nat
       /\ (items = long_items articles \/ items = short_items articles)).
Proof.
  pose proof (format_digest_message_items today articles date) as Hlong.
  pose proof (format_short_digest_items today articles date) as Hshort.
  assert (Hl : length (long_items articles) = Nat.min 10 (length articles)).
  { unfold long_items. now rewrite items_from_length, length_take. }
  assert (Hs : length (short_items articles) = Nat.min 8 (length articles)).
  { unfold short_items. now rewrite items_from_length, length_take. }
  split; [now split|]. split; [now split|].
  intros use_short_format. unfold send_digest_message.
  destruct use_short_format.
  - exists (short_header (date_or_today today date)), (short_items articles).
    split; [now destruct (3800 <? _)|]. split; [lia|now right].
  - destruct (3800 <? _).
    + exists (short_header (date_or_today today date)), (short_items articles).
      split; [exact Hshort|]. split; [lia|now right].
    + exists (long_header (date_or_today today date) articles), (long_items articles).
      split; [exact Hlong|]. split; [lia|now left].
Qed.

(** Fifteen selected articles: ten blocks in the long format, eight in
    the short one, while the header still announces fifteen. *)
Example fifteen_articles_ten_shown :
  let articles :=
    (fun i => mkDigestArticle (Some ("Article " +:+ Py.str_of_int i)) (Some "Text.")
                (Some "https://example.com/") (Some "Wired") (Some (90 - i)))
    <$> seqZ 1 15 in
  length articles = 15%nat /\
  length (long_items articles) = 10%nat /\
  length (short_items articles) = 8%nat /\
  Py.str_in "Топ 15 новостей" (format_digest_message "2025-03-01" articles None) = true /\
  Py.str_in "**10. Article 10**" (format_digest_message "2025-03-01" articles None) = true /\
  Py.str_in "Article 11" (format_digest_message "2025-03-01" articles None) = false.
Proof. vm_compute. repeat split. Qed.


(** * Further properties *)

(** ** More on the scorer *)

Lemma dict_get_Some (d : Breakdown) k v : dict_get d k = Some v -> In (k, v) d.
Proof.
  induction d as [|[k' v'] d IH]; simpl; [discriminate|].
  destruct (String.eqb_spec k' k) as [->|_].
  - intros [= ->]. now left.
  - intros H. right. now apply IH.
Qed.

Lemma dict_get_None (d : Breakdown) k :
  (forall v, ~ In (k, v) d) -> dict_get d k = None.
Proof.
  induction d as [|[k' v'] d IH]; simpl; intros Hnot; [reflexivity|].
  destruct (String.eqb_spec k' k) as [->|_].
  - exfalso. apply (Hnot v'). now left.
  - apply IH. intros v Hin. apply (Hnot v). now right.
Qed.

Lemma append_inj_l (p s1 s2 : string) : p +:+ s1 = p +:+ s2 -> s1 = s2.
Proof.
  induction p as [|c p IH]; [auto|].
  change (String c (p +:+ s1) = String c (p +:+ s2) -> s1 = s2).
  intros [= H]. now apply IH.
Qed.

Lemma In_fired category table content label points :
  In (label, points) (fired category table content) <->
  exists keyword, label = category +:+ keyword /\ In (keyword, points) table
                  /\ Py.str_in keyword content = true.
Proof.
  induction table as [|[k p] rest IH]; simpl.
  - split; [contradiction|]. intros (keyword & _ & [] & _).
  - destruct (Py.str_in k content) eqn:Hk; simpl; rewrite IH; split.
    + intros [[= <- <-]|(keyword & H1 & H2 & H3)];
        [exists k|exists keyword]; auto.
    + intros (keyword & H1 & [[= <- <-]|H2] & H3); [left; now subst|].
      right. exists keyword. auto.
    + intros (keyword & H1 & H2 & H3). exists keyword. auto.
    + intros (keyword & H1 & [[= <- <-]|H2] & H3); [congruence|].
      exists keyword. auto.
Qed.

Lemma In_recency_entry y url e :
  In e (recency_entry y url) ->
  e = ("Current year", 8) \/ e = ("Recent year", 4).
Proof.
  unfold recency_entry.
  destruct (Py.str_in (Py.str_of_int y) url); [intros [<-|[]]; auto|].
  destruct (Py.str_in (Py.str_of_int (y - 1)) url); [intros [<-|[]]; auto|].
  contradiction.
Qed.

Lemma In_source_entry domain e :
  In e (source_entry domain) ->
  exists src bonus, e = ("Source: " +:+ src, bonus).
Proof.
  unfold source_entry. destruct (first_source domain) as [[src bonus]|];
    [|contradiction].
  intros [<-|[]]. eauto.
Qed.

(** Where an entry of the breakdown comes from. *)
Lemma In_score_entries (lower : string -> string) y url title netloc e :
  In e (score_entries lower y url title netloc) <->
  In e (fired "High-value: " high_value_keywords (lower (url +:+ " " +:+ title)))
  \/ In e (fired "Medium-value: " medium_value_keywords (lower (url +:+ " " +:+ title)))
  \/ In e (fired "Company: " ai_companies (lower (url +:+ " " +:+ title)))
  \/ In e (fired "Tech: " tech_terms (lower (url +:+ " " +:+ title)))
  \/ In e (recency_entry y url)
  \/ In e (source_entry (lower netloc))
  \/ e = base_entry.
Proof.
  unfold score_entries, keyword_entries. rewrite !in_app_iff.
  change (In e [base_entry]) with (base_entry = e \/ False).
  split.
  - intros [[H|[H|[H|H]]]|[H|[H|[H|[]]]]]; subst; auto 10.
  - intros [H|[H|[H|[H|[H|[H|H]]]]]]; subst; auto 10.
Qed.

(** The four keyword tables with the category each is recorded under. *)
Definition keyword_tables : list (string * list (string * Z)) :=
  [ ("High-value: ", high_value_keywords);
    ("Medium-value: ", medium_value_keywords);
    ("Company: ", ai_companies);
    ("Tech: ", tech_terms) ].

(** Two labels that differ in their first or second character. *)
Ltac labels_differ H :=
  first
    [ apply (f_equal (fun p : Entry => String.get 0 (fst p))) in H;
      cbn in H; discriminate H
    | apply (f_equal (fun p : Entry => String.get 1 (fst p))) in H;
      cbn in H; discriminate H ].

Ltac other_label H :=
  first
    [ apply In_fired in H as (?k & ?Hlabel & _ & _);
      apply (f_equal (fun l : string => (l, 0))) in Hlabel; labels_differ Hlabel
    | apply In_recency_entry in H as [H|H]; labels_differ H
    | apply In_source_entry in H as (?s & ?b & H); labels_differ H
    | labels_differ H ].

Lemma keyword_entry_fires (lower : string -> string) y url title netloc category table keyword points :
  In (category, table) keyword_tables ->
  In (category +:+ keyword, points) (score_entries lower y url title netloc) ->
  In (keyword, points) table /\
  Py.str_in keyword (lower (url +:+ " " +:+ title)) = true.
Proof.
  intros Htable Hin. apply In_score_entries in Hin.
  assert (Hsame : forall cat tbl,
            In (cat +:+ keyword, points)
               (fired cat tbl (lower (url +:+ " " +:+ title))) ->
            In (keyword, points) tbl /\
            Py.str_in keyword (lower (url +:+ " " +:+ title)) = true).
  { intros cat tbl H. apply In_fired in H as (k & Hlabel & Hk & Hfire).
    apply append_inj_l in Hlabel. now subst k. }
  simpl in Htable.
  destruct Htable as [[= <- <-]|[[= <- <-]|[[= <- <-]|[[= <- <-]|[]]]]];
    destruct Hin as [H|[H|[H|[H|[H|[H|H]]]]]];
    lazymatch type of H with
    | In (?c +:+ _, _) (fired ?c _ _) => exact (Hsame _ _ H)
    | _ => exfalso; other_label H
    end.
Qed.

Lemma In_keyword_segment (lower : string -> string) y url title netloc category table e :
  In (category, table) keyword_tables ->
  In e (fired category table (lower (url +:+ " " +:+ title))) ->
  In e (score_entries lower y url title netloc).
Proof.
  intros Htable He. apply In_score_entries.
  destruct Htable as [[= <- <-]|[[= <- <-]|[[= <- <-]|[[= <- <-]|[]]]]]; auto 10.
Qed.

(** X1: for a keyword of one of the four tables, the breakdown holds
    the entry "<category>: <keyword>" with the table's points exactly
    when the keyword occurs in the lower-cased "url title" text, and no
    entry under that label otherwise. *)
Theorem keyword_entry_iff_occurs
    (lower : string -> string)
    (urlparse_netloc : string -> option string) (current_year : Z)
    (article_url title : string) (score : Z) (breakdown : Breakdown)
    (category : string) (table : list (string * Z))
    (keyword : string) (points : Z) :
  calculate_relevance_score lower urlparse_netloc current_year article_url title
    = Some (score, breakdown) ->
  In (category, table) keyword_tables ->
  In (keyword, points) table ->
  dict_get breakdown (category +:+ keyword) =
  if Py.str_in keyword (lower (article_url +:+ " " +:+ title))
  then Some points else None.
Proof.
  rewrite calculate_relevance_score_entries.
  destruct (urlparse_netloc article_url) as [netloc|]; [|discriminate].
  cbv zeta. intros [= <- <-] Htable Hkw.
  destruct (Py.str_in keyword _) eqn:Hfire.
  - apply dict_get_In; [apply score_entries_NoDup|].
    eapply In_keyword_segment; [exact Htable|].
    apply In_fired. exists keyword. auto.
  - apply dict_get_None. intros v Hin.
    destruct (keyword_entry_fires _ _ _ _ _ _ _ _ _ Htable Hin) as [_ Hfire'].
    congruence.
Qed.

Lemma keyword_entry_iff_occurs_witness :
  dict_get [("High-value: openai", 20); ("High-value: launch", 10);
            ("Company: google", 10); ("Current year", 8);
            ("Source: wired.com", 10); ("Base AI relevance", 5)]
    ("Company: " +:+ "google")
  = (if Py.str_in "google"
          (Py.lower ("https://www.wired.com/story/openai-launch-2025/"
                     +:+ " " +:+ "Google reacts"))
     then Some 10 else None).
Proof.
  apply (keyword_entry_iff_occurs Py.lower Urllib.netloc 2025
           "https://www.wired.com/story/openai-launch-2025/" "Google reacts"
           63 _ "Company: " ai_companies "google" 10).
  - vm_compute. reflexivity.
  - simpl. auto.
  - simpl. auto.
Defined.

(** X2: the breakdown never holds both year entries.  "Current year"
    (8) is there exactly when the current year occurs in the url;
    "Recent year" (4) exactly when it does not and the previous year
    does. *)
Theorem recency_entries_exclusive
    (lower : string -> string)
    (urlparse_netloc : string -> option string) (current_year : Z)
    (article_url title : string) (score : Z) (breakdown : Breakdown) :
  calculate_relevance_score lower urlparse_netloc current_year article_url title
    = Some (score, breakdown) ->
  (dict_get breakdown "Current year", dict_get breakdown "Recent year") =
  if Py.str_in (Py.str_of_int current_year) article_url
  then (Some 8, None)
  else if Py.str_in (Py.str_of_int (current_year - 1)) article_url
  then (None, Some 4)
  else (None, None).
Proof.
  rewrite calculate_relevance_score_entries.
  destruct (urlparse_netloc article_url) as [netloc|]; [|discriminate].
  cbv zeta. intros [= <- <-].
  assert (Hwhere : forall label v,
            label = "Current year" \/ label = "Recent year" ->
            In (label, v) (score_entries lower current_year article_url title netloc) ->
            In (label, v) (recency_entry current_year article_url)).
  { intros label v Hlabel Hin. apply In_score_entries in Hin.
    destruct Hlabel as [-> | ->];
      destruct Hin as [H|[H|[H|[H|[H|[H|H]]]]]];
      first [ exact H | exfalso; other_label H ]. }
  assert (Hback : forall e, In e (recency_entry current_year article_url) ->
            In e (score_entries lower current_year article_url title netloc)).
  { intros e He. apply In_score_entries. auto 10. }
  pose proof (score_entries_NoDup lower current_year article_url title netloc) as Hnd.
  revert Hwhere Hback. unfold recency_entry.
  destruct (Py.str_in (Py.str_of_int current_year) article_url);
    [|destruct (Py.str_in (Py.str_of_int (current_year - 1)) article_url)];
    intros Hwhere Hback; f_equal;
    first
      [ apply dict_get_In; [exact Hnd|apply Hback; now left]
      | apply dict_get_None; intros v Hin;
        apply Hwhere in Hin; [|auto];
        simpl in Hin; destruct Hin as [Hin|[]]; labels_differ Hin
      | apply dict_get_None; intros v Hin;
        apply Hwhere in Hin; [|auto]; destruct Hin ].
Qed.

Lemma recency_entries_exclusive_witness :
  (dict_get [("Recent year", 4); ("Base AI relevance", 5)] "Current year",
   dict_get [("Recent year", 4); ("Base AI relevance", 5)] "Recent year")
  = (if Py.str_in (Py.str_of_int 2025) "https://example.org/2024/12/31/notes"
     then (Some 8, None)
     else if Py.str_in (Py.str_of_int (2025 - 1)) "https://example.org/2024/12/31/notes"
     then (None, Some 4)
     else (None, None)).
Proof.
  apply (recency_entries_exclusive Py.lower Urllib.netloc 2025
           "https://example.org/2024/12/31/notes" "" 9).
  vm_compute. reflexivity.
Defined.

Lemma sum_values_sublist (l k : list Entry) :
  l `sublist_of` k -> Forall (fun e : Entry => 0 <= snd e) k ->
  sum_values l <= sum_values k.
Proof.
  induction 1 as [|x l k _ IH|x l k _ IH]; intros Hk.
  - lia.
  - apply Forall_cons in Hk as [_ Hk]. specialize (IH Hk).
    unfold sum_values in *. simpl. lia.
  - apply Forall_cons in Hk as [Hx Hk]. specialize (IH Hk).
    unfold sum_values in *. simpl. lia.
Qed.

Lemma keyword_entries_sum content : sum_values (keyword_entries content) <= 396.
Proof.
  change 396 with (sum_values
    (labelled "High-value: " high_value_keywords
     ++ labelled "Medium-value: " medium_value_keywords
     ++ labelled "Company: " ai_companies
     ++ labelled "Tech: " tech_terms)).
  apply sum_values_sublist.
  - unfold keyword_entries.
    repeat (apply sublist_app; [apply fired_sublist|]). apply fired_sublist.
  - apply (bool_decide_unpack _). vm_compute. reflexivity.
Qed.

Lemma recency_entry_sum y url : sum_values (recency_entry y url) <= 8.
Proof.
  unfold recency_entry.
  destruct (Py.str_in (Py.str_of_int y) url); [vm_compute; discriminate|].
  destruct (Py.str_in (Py.str_of_int (y - 1)) url); vm_compute; discriminate.
Qed.

Lemma source_entry_sum domain : sum_values (source_entry domain) <= 12.
Proof.
  unfold source_entry, first_source.
  destruct (List.find _ source_bonus) as [[src bonus]|] eqn:Hfind;
    [|vm_compute; discriminate].
  apply List.find_some in Hfind as [Hin _].
  assert (Hall : Forall (fun sb : string * Z => snd sb <= 12) source_bonus)
    by (apply (bool_decide_unpack _); vm_compute; reflexivity).
  rewrite Forall_forall in Hall. apply list_elem_of_In, Hall in Hin.
  unfold sum_values. simpl in *. lia.
Qed.

(** X3: no score exceeds 421, the sum of every keyword of the four
    tables (396), the current-year bonus (8), the largest source bonus
    (12) and the base (5). *)
Theorem score_at_most_421
    (lower : string -> string)
    (urlparse_netloc : string -> option string) (current_year : Z)
    (article_url title : string) (score : Z) (breakdown : Breakdown) :
  calculate_relevance_score lower urlparse_netloc current_year article_url title
    = Some (score, breakdown) ->
  score <= 421.
Proof.
  rewrite calculate_relevance_score_entries.
  destruct (urlparse_netloc article_url) as [netloc|]; [|discriminate].
  cbv zeta. intros [= <- _]. unfold score_entries.
  rewrite !sum_values_app.
  pose proof (keyword_entries_sum (lower (article_url +:+ " " +:+ title))).
  pose proof (recency_entry_sum current_year article_url).
  pose proof (source_entry_sum (lower netloc)).
  change (sum_values [base_entry]) with 5. lia.
Qed.

(** The bound is reached: a title that names every keyword, on a url of
    the current year at the best-rated source. *)
Definition every_keyword_title : string :=
  "OpenAI ChatGPT Claude Gemini LLM transformer neural breakthrough launch release announces artificial-intelligence machine-learning deep-learning automation robot algorithm dataset startup funding investment acquisition Google Microsoft Amazon Meta Facebook Nvidia Anthropic Mistral HuggingFace Tesla Apple Samsung Intel model training performance research paper study experiment".

Lemma score_at_most_421_witness :
  fst <$> calculate_relevance_score Py.lower Urllib.netloc 2025
            "https://www.technologyreview.com/2025/01/01/x/" every_keyword_title
  = Some 421
  /\ 421 <= 421.
Proof.
  split; [vm_compute; reflexivity|].
  destruct (calculate_relevance_score Py.lower Urllib.netloc 2025
              "https://www.technologyreview.com/2025/01/01/x/" every_keyword_title)
    as [[score breakdown]|] eqn:Hrun; [|vm_compute in Hrun; discriminate Hrun].
  assert (Hscore : score = 421) by (vm_compute in Hrun; congruence).
  rewrite <- Hscore at 1.
  exact (score_at_most_421 _ _ _ _ _ _ _ Hrun).
Defined.

(** X5: every contribution recorded in a returned breakdown is worth
    between 4 and 20 points: the smallest keyword weight and the
    largest one of the four tables, the bonuses and the base lying in
    between. *)
Theorem breakdown_values_bounded
    (lower : string -> string)
    (urlparse_netloc : string -> option string) (current_year : Z)
    (article_url title : string) (score : Z) (breakdown : Breakdown) :
  calculate_relevance_score lower urlparse_netloc current_year article_url title
    = Some (score, breakdown) ->
  Forall (fun e : Entry => 4 <= snd e <= 20) breakdown.
Proof.
  rewrite calculate_relevance_score_entries.
  destruct (urlparse_netloc article_url) as [netloc|]; [|discriminate].
  cbv zeta. intros [= _ <-].
  eapply Forall_sublist; [apply score_entries_sublist|].
  apply (bool_decide_unpack _). vm_compute. reflexivity.
Qed.

Lemma breakdown_values_bounded_witness :
  Forall (fun e : Entry => 4 <= snd e <= 20)
    [("Current year", 8); ("Source: wired.com", 10); ("Base AI relevance", 5)].
Proof.
  apply (breakdown_values_bounded Py.lower Urllib.netloc 2025
           "https://www.wired.com/2025/quiet-week" "" 23).
  vm_compute. reflexivity.
Defined.

(** ** More on the ranking *)

Lemma score_defined_iff_parsed_aux lower urlparse_netloc current_year article_url title :
  calculate_relevance_score lower urlparse_netloc current_year article_url title = None
  <-> urlparse_netloc article_url = None.
Proof.
  rewrite calculate_relevance_score_entries.
  destruct (urlparse_netloc article_url); split; congruence.
Qed.

Lemma score_all_None lower urlparse_netloc current_year : forall all_articles,
  score_all lower urlparse_netloc current_year all_articles = None <->
  exists c, In c all_articles /\ urlparse_netloc (snd (fst c)) = None.
Proof.
  induction all_articles as [|[[src article_url] article_title] rest IH]; simpl.
  - split; [discriminate|]. intros (c & [] & _).
  - pose proof (score_defined_iff_parsed_aux lower urlparse_netloc current_year
                  article_url article_title) as Hiff.
    destruct (calculate_relevance_score _ _ _ article_url article_title)
      as [[score breakdown]|] eqn:Hscore.
    + destruct (score_all _ _ _ rest) as [scored|].
      * split; [discriminate|]. intros (c & [<-|Hin] & Hc).
        -- simpl in Hc. apply Hiff in Hc. discriminate.
        -- assert (None = Some scored) as Habs; [|discriminate].
           symmetry. apply IH. now exists c.
      * split; [|reflexivity]. intros _.
        destruct (proj1 IH eq_refl) as (c & Hin & Hc). exists c. auto.
    + split; [|reflexivity]. intros _.
      exists (src, article_url, article_title). split; [now left|].
      simpl. now apply Hiff.
Qed.

(** X6: one url that [urlparse] rejects aborts the whole digest: the
    function raises exactly when some collected tuple has such a url,
    wherever it stands in the list and whatever the others score. *)
Theorem digest_raises_iff_some_url_rejected
    (lower : string -> string)
    (urlparse_netloc : string -> option string) (current_year : Z)
    (all_articles : list Candidate) (top_n : Z) :
  create_comprehensive_ai_digest lower urlparse_netloc current_year all_articles top_n
    = None
  <-> exists c, In c all_articles /\ urlparse_netloc (snd (fst c)) = None.
Proof.
  unfold create_comprehensive_ai_digest.
  destruct all_articles as [|c0 rest].
  - split; [discriminate|]. intros (c & [] & _).
  - rewrite <- (score_all_None lower urlparse_netloc current_year).
    destruct (score_all lower urlparse_netloc current_year (c0 :: rest));
      split; intros H; first [discriminate H | reflexivity].
Qed.

Example one_bad_url_aborts_digest :
  create_comprehensive_ai_digest Py.lower Urllib.netloc 2025
    [ ("Wired", "https://www.wired.com/story/openai-launch-2025/", "");
      ("Wired", "https://[www.wired.com/story/x", "") ] 15
  = None.
Proof. vm_compute. reflexivity. Qed.

(** X7: asking for more entries only appends: for 0 <= n <= m the top-n
    selection is a prefix of the top-m selection of the same list. *)
Theorem top_articles_prefix_monotone
    (scored_articles : list ScoredArticle) (n m : Z) :
  0 <= n -> n <= m ->
  top_articles scored_articles n `prefix_of` top_articles scored_articles m.
Proof.
  intros Hn Hm. unfold top_articles, list_slice_to.
  destruct (Z.leb_spec 0 n); [|lia]. destruct (Z.leb_spec 0 m); [|lia].
  set (sorted := sorted_by_score_desc scored_articles).
  exists (drop (Z.to_nat n) (take (Z.to_nat m) sorted)).
  rewrite <- (take_drop (Z.to_nat n) (take (Z.to_nat m) sorted)) at 1.
  f_equal. rewrite take_take. f_equal. lia.
Qed.

Lemma top_articles_prefix_monotone_witness :
  top_articles [article_A; article_B; article_C] 1
  `prefix_of` top_articles [article_A; article_B; article_C] 2.
Proof.
  apply (top_articles_prefix_monotone [article_A; article_B; article_C] 1 2); lia.
Defined.


(** ** More of the store: queries and the digest history *)

(** Times are seconds since the epoch.  [DATE('now', '-N day')] is the
    date [N] days before today; a timestamp compares greater or equal
    to it exactly when it is no earlier than that day's midnight. *)
Definition date_minus_days (now : Z) (days : nat) : Z :=
  (now / 86400 - Z.of_nat days) * 86400.

(** [DATE('now', '-N day')] is NULL when SQLite computes no date: the
    modifier moves 5373485 days or more, or the result falls before
    Julian day 0 (210866760000 seconds before the epoch) or after the
    year 9999. *)
Definition date_is_null (now : Z) (days : nat) : bool :=
  (5373485 <=? Z.of_nat days)
  || (now + 210866760000 <? Z.of_nat days * 86400)
  || (253402300800 <=? now - Z.of_nat days * 86400).

(** The times whose text CURRENT_TIMESTAMP writes with a year of four
    digits, 0000 to 9999: on these the comparison of texts that SQLite
    makes is the comparison of times. *)
Definition in_sqlite_range (t : Z) : bool :=
  (-62167219200 <=? t) && (t <? 253402300800).

(** [ORDER BY relevance_score DESC, created_at DESC]: [a] comes
    strictly before [b]. *)
Definition ranks_before (a b : Article) : bool :=
  (row_relevance_score b <? row_relevance_score a)
  || ((row_relevance_score a =? row_relevance_score b)
      && (row_created_at b <? row_created_at a)).

(** Rows equal on both keys stay in table order (SQL leaves their
    order open). *)
Fixpoint insert_row (x : Article) (l : list Article) : list Article :=
  match l with
  | [] => [x]
  | y :: l' => if ranks_before y x then y :: insert_row x l' else x :: y :: l'
  end.

Definition order_rows (rows : list Article) : list Article :=
  foldr insert_row [] rows.

(** [LIMIT ?]: a negative limit is no limit. *)
Definition sql_limit {A} (rows : list A) (limit : Z) : list A :=
  if limit <? 0 then rows else take (Z.to_nat limit) rows.

(** The WHERE clause of [get_top_articles]. *)
Definition recent_with_summary (now : Z) (days : nat) (row : Article) : bool :=
  (date_minus_days now days <=? row_created_at row)
  && negb (String.eqb (row_summary row) "").

(** [get_top_articles(days, limit)] at time [now], for a number of days
    that is zero or more and a limit that fits 64 bits.  Against a NULL
    date the comparison holds of no row. *)
Definition get_top_articles (now : Z) (db : NewsDatabase) (days : nat)
    (limit : Z) : list Article :=
  if date_is_null now days then []
  else
    sql_limit
      (order_rows (List.filter (recent_with_summary now days) (articles db)))
      limit.

(** A row of [digest_posts]; [article_ids] is the JSON array of ids. *)
Record DigestPost : Type := mkPost {
  post_id : Z;
  post_date : string;
  post_article_ids : list Z;
  post_telegram_message_id : option Z;
  post_created_at : Z
}.

(** The table [digest_posts] with its AUTOINCREMENT counter. *)
Record DigestPosts : Type := mkPosts {
  posts : list DigestPost;
  posts_seq : Z
}.

Definition no_posts : DigestPosts := mkPosts [] 0.

(** A date in the form YYYY-MM-DD, as [strftime('%Y-%m-%d')] writes it.
    The column [date] has NUMERIC affinity: a text that reads as a
    number is stored and compared as that number, a date in this form is
    kept as the text it is. *)
Definition is_digit (c : ascii) : bool :=
  let n := nat_of_ascii c in ((48 <=? n) && (n <=? 57))%nat.

Definition is_iso_date (s : string) : bool :=
  match list_ascii_of_string s with
  | [y1; y2; y3; y4; s1; m1; m2; s2; d1; d2] =>
      forallb is_digit [y1; y2; y3; y4; m1; m2; d1; d2]
      && Ascii.eqb s1 "-" && Ascii.eqb s2 "-"
  | _ => false
  end.

(** [has_digest_for_date(date)], for dates in the form YYYY-MM-DD. *)
Definition has_digest_for_date (today : string) (tbl : DigestPosts)
    (date : option string) : bool :=
  let date := date_or_today today date in
  existsb (fun p => String.eqb (post_date p) date) (posts tbl).

(** The id AUTOINCREMENT gives to a new row of [digest_posts]. *)
Definition next_post_id (tbl : DigestPosts) : Z :=
  Z.max (posts_seq tbl + 1)
    match post_id <$> posts tbl with
    | [] => 1
    | i :: ids => foldr Z.max i ids + 1
    end.

(** [record_digest_post(article_ids, telegram_message_id, date)], for
    dates in the form YYYY-MM-DD: INSERT OR REPLACE removes the row that
    holds the date, if any, and inserts the new one under a new id.  A
    message id that does not fit 64 bits overflows when bound, and the
    rowids can be used up. *)
Definition record_digest_post (now : Z) (today : string) (tbl : DigestPosts)
    (article_ids : list Z) (telegram_message_id : option Z)
    (date : option string) : DbError + DigestPosts :=
  let date := date_or_today today date in
  if negb (fits_int64 (default 0 telegram_message_id)) then inl OverflowError
  else if max_rowid <? next_post_id tbl then inl OperationalError
  else
    let kept := List.filter (fun p => negb (String.eqb (post_date p) date)) (posts tbl) in
    let new_id := next_post_id tbl in
    inr (mkPosts (kept ++ [mkPost new_id date article_ids telegram_message_id now])
           new_id).

(** The row recorded for a date. *)
Definition digest_for_date (tbl : DigestPosts) (date : string) : option DigestPost :=
  List.find (fun p => String.eqb (post_date p) date) (posts tbl).

(** ** Properties of the queries *)

(** [a] is not ranked after [b]. *)
Definition key_ge (a b : Article) : Prop :=
  row_relevance_score b < row_relevance_score a
  \/ (row_relevance_score a = row_relevance_score b
      /\ row_created_at b <= row_created_at a).

Lemma ranks_before_spec a b :
  ranks_before a b = true <->
  row_relevance_score b < row_relevance_score a
  \/ (row_relevance_score a = row_relevance_score b
      /\ row_created_at b < row_created_at a).
Proof.
  unfold ranks_before.
  rewrite orb_true_iff, andb_true_iff, !Z.ltb_lt, Z.eqb_eq. reflexivity.
Qed.

Lemma insert_row_perm x l : insert_row x l ≡ₚ x :: l.
Proof.
  induction l as [|y l IH]; simpl; [reflexivity|].
  destruct (ranks_before y x); [|reflexivity].
  rewrite IH. apply Permutation_swap.
Qed.

Lemma order_rows_perm l : order_rows l ≡ₚ l.
Proof.
  induction l as [|x l IH]; simpl; [reflexivity|].
  rewrite insert_row_perm. now rewrite IH.
Qed.

Lemma insert_row_sorted x l :
  StronglySorted key_ge l -> StronglySorted key_ge (insert_row x l).
Proof.
  induction 1 as [|y l Hl IH Hy]; simpl.
  - repeat constructor.
  - destruct (ranks_before y x) eqn:Hyx.
    + apply ranks_before_spec in Hyx.
      constructor; [exact IH|].
      rewrite insert_row_perm. constructor; [|exact Hy].
      unfold key_ge. lia.
    + assert (Hxy : key_ge x y).
      { unfold key_ge.
        destruct (ranks_before_spec y x) as [_ Hback].
        destruct (Z.lt_trichotomy (row_relevance_score x) (row_relevance_score y))
          as [Hlt|[Heq|Hgt]].
        - rewrite Hback in Hyx; [discriminate|lia].
        - destruct (Z.lt_ge_cases (row_created_at x) (row_created_at y)) as [Hc|Hc].
          + rewrite Hback in Hyx; [discriminate|lia].
          + right. lia.
        - left. lia. }
      constructor; [now constructor|].
      constructor; [exact Hxy|].
      eapply Forall_impl; [exact Hy|].
      unfold key_ge in *. intros z Hz. lia.
Qed.

Lemma order_rows_sorted l : StronglySorted key_ge (order_rows l).
Proof.
  induction l as [|x l IH]; simpl; [constructor|].
  now apply insert_row_sorted.
Qed.

Lemma sql_limit_sublist {A} (rows : list A) limit :
  sql_limit rows limit `sublist_of` rows.
Proof.
  unfold sql_limit. destruct (limit <? 0); [reflexivity|apply sublist_take].
Qed.

Lemma sql_limit_prefix {A} (rows : list A) limit :
  exists rest, rows = sql_limit rows limit ++ rest.
Proof.
  unfold sql_limit. destruct (limit <? 0).
  - exists []. now rewrite app_nil_r.
  - exists (drop (Z.to_nat limit) rows). now rewrite take_drop.
Qed.

(** X8: [get_top_articles] returns only rows of the table that have a
    non-empty summary and were created within the window, ordered by
    relevance score and then creation time, both descending; with a
    limit of zero or more it returns at most that many; and a
    qualifying row that is left out ranks no higher than any row
    returned. *)
Theorem get_top_articles_summarized_ordered_bounded
    (now : Z) (db : NewsDatabase) (days : nat) (limit : Z) :
  Forall (fun row => In row (articles db)
                     /\ row_summary row <> ""
                     /\ date_minus_days now days <= row_created_at row)
    (get_top_articles now db days limit) /\
  StronglySorted key_ge (get_top_articles now db days limit) /\
  (0 <= limit -> Z.of_nat (length (get_top_articles now db days limit)) <= limit) /\
  (forall row, In row (articles db) -> recent_with_summary now days row = true ->
     ~ In row (get_top_articles now db days limit) ->
     Forall (fun shown => key_ge shown row) (get_top_articles now db days limit)).
Proof.
  unfold get_top_articles.
  destruct (date_is_null now days).
  { split; [constructor|]. split; [constructor|].
    split; [simpl; lia|]. intros; constructor. }
  set (ordered := order_rows (List.filter (recent_with_summary now days) (articles db))).
  assert (Hperm : ordered ≡ₚ List.filter (recent_with_summary now days) (articles db))
    by apply order_rows_perm.
  assert (Hsorted : StronglySorted key_ge ordered) by apply order_rows_sorted.
  destruct (sql_limit_prefix ordered limit) as [rest Hrest].
  split; [|split; [|split]].
  - eapply Forall_sublist; [apply sql_limit_sublist|].
    apply Forall_forall. intros row Hrow. rewrite Hperm in Hrow.
    apply list_elem_of_In, List.filter_In in Hrow as [Hin Hq].
    unfold recent_with_summary in Hq.
    apply andb_true_iff in Hq as [Hdate Hsum].
    apply Z.leb_le in Hdate. apply negb_true_iff, String.eqb_neq in Hsum.
    auto.
  - rewrite Hrest in Hsorted. clear -Hsorted.
    induction (sql_limit ordered limit) as [|x l IH]; [constructor|].
    simpl in Hsorted. apply StronglySorted_inv in Hsorted as [Hl Hx].
    constructor; [now apply IH|].
    apply Forall_app in Hx. apply Hx.
  - intros Hlimit. unfold sql_limit.
    destruct (Z.ltb_spec limit 0); [lia|]. rewrite length_take. lia.
  - intros row Hin Hq Hout. apply Forall_forall. intros shown Hshown.
    apply list_elem_of_In in Hshown.
    assert (Hrow : In row rest).
    { assert (Hord : In row ordered).
      { apply list_elem_of_In. rewrite Hperm. apply list_elem_of_In.
        apply List.filter_In. auto. }
      rewrite Hrest in Hord. apply in_app_or in Hord as [Hord|Hord];
        [contradiction|exact Hord]. }
    rewrite Hrest in Hsorted.
    exact (StronglySorted_app_inv key_ge _ _ Hsorted shown row Hshown Hrow).
Qed.











(** ** Properties of the digest history *)

Lemma find_app_not {A} (f : A -> bool) (l : list A) (x : A) :
  List.find f l = None -> f x = true -> List.find f (l ++ [x]) = Some x.
Proof.
  induction l as [|y l IH]; simpl; intros Hl Hx; [now rewrite Hx|].
  destruct (f y); [discriminate|]. now apply IH.
Qed.

Lemma find_filter_out {A} (f : A -> bool) (l : list A) :
  List.find f (List.filter (fun x => negb (f x)) l) = None.
Proof.
  induction l as [|y l IH]; simpl; [reflexivity|].
  destruct (f y) eqn:Hy; simpl; [exact IH|]. now rewrite Hy.
Qed.




(** What a recording that returns leaves behind. *)
Lemma record_digest_post_inv now today tbl article_ids message_id date tbl' :
  record_digest_post now today tbl article_ids message_id date = inr tbl' ->
  tbl' = mkPosts
           (List.filter (fun p => negb (String.eqb (post_date p)
                                          (date_or_today today date))) (posts tbl)
            ++ [mkPost (next_post_id tbl) (date_or_today today date) article_ids
                  message_id now])
           (next_post_id tbl).
Proof.
  unfold record_digest_post.
  destruct (negb (fits_int64 (default 0 message_id))); [discriminate|].
  destruct (max_rowid <? next_post_id tbl); [discriminate|].
  now intros [= <-].
Qed.



(** A history of two dates. *)
Definition sample_posts : DigestPosts :=
  mkPosts [mkPost 1 "2025-02-27" [1] (Some 498) 5;
           mkPost 2 "2025-02-28" [1; 2] (Some 499) 6] 2.


Example record_digest_post_twice :
  record_digest_post 10 "2025-03-01" sample_posts [4; 5] (Some 501)
    (Some "2025-02-28")
  = inr (mkPosts [mkPost 1 "2025-02-27" [1] (Some 498) 5;
                  mkPost 3 "2025-02-28" [4; 5] (Some 501) 10] 3).
Proof. vm_compute. reflexivity. Qed.


(** ** More on the collection run *)

Definition is_summarized (e : Event) : bool :=
  match snd e with
  | Summarized _ => true
  | _ => false
  end.

(** The summarizer calls recorded in a log. *)
Definition summarized_count (log : list Event) : Z :=
  Z.of_nat (length (List.filter is_summarized log)).

Lemma summarized_count_snoc log e :
  summarized_count (log ++ [e])
  = summarized_count log + (if is_summarized e then 1 else 0).
Proof.
  unfold summarized_count. rewrite List.filter_app, length_app. simpl.
  destruct (is_summarized e); simpl; lia.
Qed.

Section RunFacts.

Variable lower : string -> string.
Variable urlparse_netloc : string -> option string.
Variable current_year : Z.
Variable now : Z.
Variable today : string.
Variable extract_article : string -> string -> ArticleData.
Variable summarize_article : string -> string -> Z -> string.
Variable summary_max_words : Z.

Local Abbreviation process_one :=
  (process_article lower urlparse_netloc current_year now extract_article
     summarize_article summary_max_words).

(** What a run keeps true of its counters: the count returned is the
    number of summarizer calls, every per-source count lies between 0
    and the limit, and at most one more candidate was handled than the
    log shows summarized. *)
Record counters_ok (limit : Z) (st : RunState) : Prop := {
  count_is_summarized : new_articles_count st = summarized_count (run_log st);
  counts_bounded : forall src n,
    processed_by_source st !! src = Some n -> 0 <= n <= Z.max 0 limit
}.

Lemma counts_bounded_init limit (counts : gmap string Z) src :
  (forall s n, counts !! s = Some n -> 0 <= n <= Z.max 0 limit) ->
  forall s n,
    (match counts !! src with
     | Some _ => counts
     | None => <[src := 0]> counts
     end) !! s = Some n ->
    0 <= n <= Z.max 0 limit.
Proof.
  intros Hc s n. destruct (counts !! src) eqn:Hsrc; [apply Hc|].
  destruct (decide (src = s)) as [->|Hne].
  - rewrite lookup_insert_eq. intros [= <-]. lia.
  - rewrite lookup_insert_ne by exact Hne. apply Hc.
Qed.

Lemma counts_bounded_step limit (counts : gmap string Z) src :
  (forall s n, counts !! s = Some n -> 0 <= n <= Z.max 0 limit) ->
  default 0 (counts !! src) < limit ->
  forall s n,
    <[src := default 0 (counts !! src) + 1]> counts !! s = Some n ->
    0 <= n <= Z.max 0 limit.
Proof.
  intros Hc Hlt s n. destruct (decide (src = s)) as [->|Hne].
  - rewrite lookup_insert_eq. intros [= <-].
    destruct (counts !! s) as [m|] eqn:Hs; simpl in *.
    + specialize (Hc s m Hs). lia.
    + lia.
  - rewrite lookup_insert_ne by exact Hne. apply Hc.
Qed.

Lemma process_article_counters limit st c :
  counters_ok limit st -> counters_ok limit (process_one limit st c).
Proof.
  intros [Hcount Hbound]. destruct c as [[src article_url] article_title].
  unfold process_article.
  set (st1 := match processed_by_source st !! src with
              | Some _ => st
              | None => _
              end).
  assert (Hok1 : counters_ok limit st1).
  { unfold st1. destruct (processed_by_source st !! src) eqn:Hsrc;
      [now split|].
    split; [exact Hcount|]. simpl. intros s n.
    pose proof (counts_bounded_init limit (processed_by_source st) src Hbound s n)
      as Hinit.
    rewrite Hsrc in Hinit. exact Hinit. }
  clearbody st1. clear Hcount Hbound. destruct Hok1 as [Hcount Hbound].
  destruct (Z.leb_spec limit (default 0 (processed_by_source st1 !! src)))
    as [|Hlt]; [now split|].
  destruct (calculate_relevance_score _ _ _ article_url article_title)
    as [[score breakdown]|]; [|now split].
  destruct (score <? 30); [now split|].
  cbv zeta.
  destruct (add_article _ _ _) as [err|[article_id db]].
  - split; [|exact Hbound]. simpl.
    rewrite summarized_count_snoc. simpl. lia.
  - cbn [ad_content ad_title].
    assert (Hplain : forall db' log' count',
              count' = summarized_count log' ->
              counters_ok limit
                (count_processed (mkRun db' count' (processed_by_source st1) log') src)).
    { intros db' log' count' Heq. split; [exact Heq|]. simpl.
      now apply counts_bounded_step. }
    destruct (ad_content (extract_article article_url src)) as [text|].
    + destruct (negb (String.eqb text "") && (100 <? Py.len text)).
      * destruct (ad_title (extract_article article_url src)) as [t|].
        -- unfold log_event. simpl. apply Hplain.
           rewrite !summarized_count_snoc. simpl. lia.
        -- split; [|exact Hbound]. simpl.
           rewrite !summarized_count_snoc. simpl. lia.
      * unfold log_event. simpl. apply Hplain.
        rewrite !summarized_count_snoc. simpl. lia.
    + unfold log_event. simpl. apply Hplain.
      rewrite !summarized_count_snoc. simpl. lia.
Qed.

Lemma fold_process_counters limit : forall cs st,
  counters_ok limit st ->
  counters_ok limit (fold_left (process_one limit) cs st).
Proof.
  induction cs as [|c cs IH]; intros st Hok; simpl; [exact Hok|].
  apply IH. now apply process_article_counters.
Qed.

(** Every source of a candidate handled so far has a count. *)
Lemma process_article_counts_source limit st c :
  is_Some (processed_by_source (process_one limit st c) !! fst (fst c)) /\
  (forall s, is_Some (processed_by_source st !! s) ->
             is_Some (processed_by_source (process_one limit st c) !! s)).
Proof.
  destruct c as [[src article_url] article_title]. simpl.
  unfold process_article.
  set (st1 := match processed_by_source st !! src with
              | Some _ => st
              | None => _
              end).
  assert (Hsrc : is_Some (processed_by_source st1 !! src)).
  { unfold st1. destruct (processed_by_source st !! src) eqn:Hs;
      [rewrite Hs; eauto|].
    simpl. rewrite lookup_insert_eq. eauto. }
  assert (Hkeep : forall s, is_Some (processed_by_source st !! s) ->
                            is_Some (processed_by_source st1 !! s)).
  { intros s Hs. unfold st1. destruct (processed_by_source st !! src); [exact Hs|].
    simpl. destruct (decide (src = s)) as [->|Hne].
    - rewrite lookup_insert_eq. eauto.
    - now rewrite lookup_insert_ne. }
  clearbody st1.
  assert (Hcounted : forall db count' log' s,
            is_Some (processed_by_source st1 !! s) ->
            is_Some (processed_by_source
                       (count_processed (mkRun db count' (processed_by_source st1) log') src)
                     !! s)).
  { intros db count' log' s Hs. simpl. destruct (decide (src = s)) as [->|Hne].
    - rewrite lookup_insert_eq. eauto.
    - now rewrite lookup_insert_ne. }
  split; [pose proof Hsrc as Hs|intros s Hs0; pose proof (Hkeep s Hs0) as Hs].
  all: destruct (limit <=? _); [exact Hs|].
  all: destruct (calculate_relevance_score _ _ _ article_url article_title)
         as [[score breakdown]|]; [|exact Hs].
  all: destruct (score <? 30); [exact Hs|].
  all: cbv zeta.
  all: destruct (add_article _ _ _) as [err|[article_id db]]; [exact Hs|].
  all: cbn [ad_content ad_title].
  all: destruct (ad_content (extract_article article_url src)) as [text|];
         [|unfold log_event; simpl; now apply (Hcounted db 0 [])].
  all: destruct (negb (String.eqb text "") && (100 <? Py.len text));
         [|unfold log_event; simpl; now apply (Hcounted db 0 [])].
  all: destruct (ad_title (extract_article article_url src)) as [t|];
         [|exact Hs].
  all: unfold log_event; simpl; now apply (Hcounted db 0 []).
Qed.

(** A stored candidate is handled to the end of the loop body unless
    reading ['title'] raises: the text is long enough to summarize and
    the extractor gave no title. *)
Definition completes (c : Candidate) : bool :=
  let article_data := extract_article (snd (fst c)) (fst (fst c)) in
  match ad_content article_data with
  | Some text =>
      if negb (String.eqb text "") && (100 <? Py.len text)
      then match ad_title article_data with Some _ => true | None => false end
      else true
  | None => true
  end.

(** The event of a candidate of [src] that the store took in and the
    loop body handled to its end. *)
Definition handled (src : string) (e : Event) : bool :=
  match snd e with
  | Stored _ => String.eqb (fst (fst (fst e))) src && completes (fst e)
  | _ => false
  end.

Definition handled_count (src : string) (log : list Event) : Z :=
  Z.of_nat (length (List.filter (handled src) log)).

Lemma handled_count_snoc src log e :
  handled_count src (log ++ [e])
  = handled_count src log + (if handled src e then 1 else 0).
Proof.
  unfold handled_count. rewrite List.filter_app, length_app. simpl.
  destruct (handled src e); simpl; lia.
Qed.

(** The count of a source is the number of its candidates handled. *)
Definition counts_match (st : RunState) : Prop :=
  forall s, default 0 (processed_by_source st !! s) = handled_count s (run_log st).

Lemma counts_match_counted (st' : RunState) (counts : gmap string Z) log src
    article_url article_title article_id :
  (forall s, default 0 (counts !! s) = handled_count s log) ->
  completes (src, article_url, article_title) = true ->
  processed_by_source st' = <[src := default 0 (counts !! src) + 1]> counts ->
  (forall s, handled_count s (run_log st')
             = handled_count s (log ++ [(src, article_url, article_title,
                                         Stored article_id)])) ->
  counts_match st'.
Proof.
  intros Hm Hc Hcounts Hlog s. rewrite Hcounts, Hlog, handled_count_snoc.
  unfold handled. cbn [snd fst]. rewrite Hc, andb_true_r.
  destruct (decide (src = s)) as [<-|Hne].
  - rewrite lookup_insert_eq, String.eqb_refl. simpl. now rewrite Hm.
  - rewrite lookup_insert_ne by exact Hne.
    destruct (String.eqb_spec src s); [contradiction|]. rewrite Hm. lia.
Qed.

Lemma process_article_counts_match limit st c :
  counts_match st -> counts_match (process_one limit st c).
Proof.
  intros Hm. destruct c as [[src article_url] article_title].
  unfold process_article.
  set (st1 := match processed_by_source st !! src with
              | Some _ => st
              | None => _
              end).
  assert (H1 : counts_match st1).
  { unfold st1. destruct (processed_by_source st !! src) eqn:Hsrc; [exact Hm|].
    intros s. simpl. destruct (decide (src = s)) as [<-|Hne].
    - rewrite lookup_insert_eq. simpl. now rewrite <- Hm, Hsrc.
    - rewrite lookup_insert_ne by exact Hne. apply Hm. }
  clearbody st1. clear Hm.
  destruct (limit <=? _); [exact H1|].
  destruct (calculate_relevance_score _ _ _ article_url article_title)
    as [[score breakdown]|]; [|exact H1].
  destruct (score <? 30); [exact H1|].
  cbv zeta.
  destruct (add_article _ _ _) as [err|[article_id db]].
  - intros s. simpl. rewrite handled_count_snoc. simpl. rewrite Z.add_0_r. apply H1.
  - cbn [ad_content ad_title].
    pose proof (fun st' => counts_match_counted st' (processed_by_source st1)
                             (run_log st1) src article_url article_title
                             article_id H1) as Hcounted.
    unfold completes in Hcounted. cbn [fst snd] in Hcounted.
    destruct (ad_content (extract_article article_url src)) as [text|] eqn:Hcontent.
    + destruct (negb (String.eqb text "") && (100 <? Py.len text)) eqn:Hlong.
      * destruct (ad_title (extract_article article_url src)) as [t|] eqn:Htitle.
        -- apply Hcounted; [reflexivity|reflexivity|].
           intros s. simpl. rewrite !handled_count_snoc. simpl.
           destruct (handled s _); lia.
        -- intros s. simpl. rewrite !handled_count_snoc.
           unfold handled, completes. cbn [fst snd].
           rewrite Hcontent, Hlong, Htitle, andb_false_r. rewrite (H1 s). lia.
      * apply Hcounted; [reflexivity|reflexivity|].
        intros s. simpl. rewrite !handled_count_snoc. simpl.
           destruct (handled s _); lia.
    + apply Hcounted; [reflexivity|reflexivity|].
      intros s. simpl. rewrite !handled_count_snoc. simpl.
           destruct (handled s _); lia.
Qed.

Lemma fold_process_counts_match limit : forall cs st,
  counts_match st -> counts_match (fold_left (process_one limit) cs st).
Proof.
  induction cs as [|c cs IH]; intros st Hok; simpl; [exact Hok|].
  apply IH. now apply process_article_counts_match.
Qed.

End RunFacts.

Lemma fold_process_counts_sources lower urlparse_netloc current_year now
    extract_article summarize_article summary_max_words limit :
  forall cs st,
  (forall c, In c cs ->
     is_Some (processed_by_source
                (fold_left (process_article lower urlparse_netloc current_year now
                              extract_article summarize_article summary_max_words
                              limit) cs st) !! fst (fst c))) /\
  (forall s, is_Some (processed_by_source st !! s) ->
     is_Some (processed_by_source
                (fold_left (process_article lower urlparse_netloc current_year now
                              extract_article summarize_article summary_max_words
                              limit) cs st) !! s)).
Proof.
  induction cs as [|c cs IH]; intros st; simpl.
  - split; [intros c []|auto].
  - destruct (process_article_counts_source lower urlparse_netloc current_year now
                extract_article summarize_article summary_max_words limit st c)
      as [Hc Hkeep].
    destruct (IH (process_article lower urlparse_netloc current_year now
                    extract_article summarize_article summary_max_words
                    limit st c)) as [IH1 IH2].
    split.
    + intros c' [<-|Hin]; [now apply IH2|now apply IH1].
    + intros s Hs. apply IH2, Hkeep, Hs.
Qed.

Lemma source_stats_written today (db : NewsDatabase) (counts : gmap string Z) :
  let db' := map_fold (fun src count db =>
                         update_source_stats db src count count today) db counts in
  (forall src, source_stats db' !! (src, today)
               = match counts !! src with
                 | Some n => Some (n, n)
                 | None => source_stats db !! (src, today)
                 end) /\
  (forall src date, date <> today ->
     source_stats db' !! (src, date) = source_stats db !! (src, date)).
Proof.
  cbv zeta.
  apply (map_fold_weak_ind
    (fun (r : NewsDatabase) (m : gmap string Z) =>
       (forall src, source_stats r !! (src, today)
                    = match m !! src with
                      | Some n => Some (n, n)
                      | None => source_stats db !! (src, today)
                      end) /\
       (forall src date, date <> today ->
          source_stats r !! (src, date) = source_stats db !! (src, date)))).
  - split; [intros src; now rewrite lookup_empty|auto].
  - intros s n m r Hfresh [IH1 IH2]. split.
    + intros src. simpl. destruct (decide (s = src)) as [->|Hne].
      * now rewrite !lookup_insert_eq.
      * rewrite lookup_insert_ne by congruence.
        rewrite (lookup_insert_ne m) by exact Hne. apply IH1.
    + intros src date Hdate. simpl.
      rewrite lookup_insert_ne by congruence. now apply IH2.
Qed.

Lemma add_article_keeps_stats t db data article_id db' :
  add_article t db data = inr (article_id, db') ->
  source_stats db' = source_stats db.
Proof.
  intros Hadd.
  now apply add_article_inv in Hadd as [(_ & _ & _ & _ & ->)|(_ & _ & _ & ->)].
Qed.

Lemma process_article_keeps_stats lower urlparse_netloc current_year now
    extract_article summarize_article summary_max_words limit st c :
  source_stats (run_db (process_article lower urlparse_netloc current_year now
                          extract_article summarize_article summary_max_words
                          limit st c))
  = source_stats (run_db st).
Proof.
  destruct c as [[src article_url] article_title]. unfold process_article.
  set (st1 := match processed_by_source st !! src with
              | Some _ => st
              | None => _
              end).
  assert (Hst1 : run_db st1 = run_db st).
  { unfold st1. now destruct (processed_by_source st !! src). }
  rewrite <- Hst1. clearbody st1. clear Hst1.
  destruct (limit <=? _); [reflexivity|].
  destruct (calculate_relevance_score _ _ _ article_url article_title)
    as [[score breakdown]|]; [|reflexivity].
  destruct (score <? 30); [reflexivity|].
  cbv zeta.
  destruct (add_article _ _ _) as [err|[article_id db]] eqn:Hadd; [reflexivity|].
  apply add_article_keeps_stats in Hadd. simpl in Hadd.
  cbn [ad_content ad_title].
  destruct (ad_content (extract_article article_url src)) as [text|];
    [|exact Hadd].
  destruct (negb (String.eqb text "") && (100 <? Py.len text)); [|exact Hadd].
  destruct (ad_title (extract_article article_url src)) as [t|]; exact Hadd.
Qed.

Lemma fold_process_stats_aux lower urlparse_netloc current_year now
    extract_article summarize_article summary_max_words limit :
  forall cs st key,
  source_stats (run_db (fold_left (process_article lower urlparse_netloc current_year
                                     now extract_article summarize_article
                                     summary_max_words limit) cs st)) !! key
  = source_stats (run_db st) !! key.
Proof.
  induction cs as [|c cs IH]; intros st key; simpl; [reflexivity|].
  rewrite IH. now rewrite process_article_keeps_stats.
Qed.

(** X12: the number [collect_and_process_articles] returns is the
    number of summarizer calls of the run, a url processed twice
    counting twice; with nothing collected it returns 0 and touches
    neither the store nor the source statistics. *)
Theorem collect_count_is_summarizer_calls
    (lower : string -> string)
    (urlparse_netloc : string -> option string) (current_year now : Z)
    (today : string) (extract_article : string -> string -> ArticleData)
    (summarize_article : string -> string -> Z -> string)
    (summary_max_words : Z) (db : NewsDatabase)
    (all_articles : list Candidate) (limit_per_source : Z) :
  let '(count, db', log) :=
    collect_and_process_articles lower urlparse_netloc current_year now today
      extract_article summarize_article summary_max_words db all_articles
      limit_per_source in
  count = summarized_count log /\
  (all_articles = [] -> count = 0 /\ db' = db /\ log = []).
Proof.
  unfold collect_and_process_articles.
  destruct all_articles as [|c cs]; [now auto|].
  split; [|discriminate].
  apply (fold_process_counters lower urlparse_netloc current_year now
           extract_article summarize_article summary_max_words limit_per_source).
  split; [reflexivity|]. simpl. intros src n. now rewrite lookup_empty.
Qed.

(** X13: after a run on a date in the form YYYY-MM-DD, every source
    that yielded a candidate has a statistics row for today whose two
    counts are equal: both are the number of that source's candidates
    that the store took in and the loop body handled to its end (stored,
    and not dropped by a missing title on the way to the summarizer),
    which lies between 0 and the per-source limit.  Rows of other dates
    of that form are as before. *)
Theorem collect_writes_source_stats
    (lower : string -> string)
    (urlparse_netloc : string -> option string) (current_year now : Z)
    (today : string) (extract_article : string -> string -> ArticleData)
    (summarize_article : string -> string -> Z -> string)
    (summary_max_words : Z) (db : NewsDatabase)
    (all_articles : list Candidate) (limit_per_source : Z) :
  is_iso_date today = true ->
  let '(count, db', log) :=
    collect_and_process_articles lower urlparse_netloc current_year now today
      extract_article summarize_article summary_max_words db all_articles
      limit_per_source in
  (forall src article_url article_title,
     In (src, article_url, article_title) all_articles ->
     source_stats db' !! (src, today)
     = Some (handled_count extract_article src log,
             handled_count extract_article src log)
     /\ 0 <= handled_count extract_article src log <= Z.max 0 limit_per_source) /\
  (forall src date, is_iso_date date = true -> date <> today ->
     source_stats db' !! (src, date) = source_stats db !! (src, date)).
Proof.
  intros _. unfold collect_and_process_articles.
  destruct all_articles as [|c cs]; [split; [intros ? ? ? []|auto]|].
  set (st := fold_left _ (c :: cs) _).
  destruct (source_stats_written today (run_db st) (processed_by_source st))
    as [Hwritten Hother].
  assert (Hdb : forall key, source_stats (run_db st) !! key = source_stats db !! key).
  { intros key. unfold st.
    apply (fold_process_stats_aux lower urlparse_netloc current_year now
             extract_article summarize_article summary_max_words
             limit_per_source (c :: cs) (mkRun db 0 ∅ []) key). }
  assert (Hmatch : counts_match extract_article st).
  { apply fold_process_counts_match. intros s. simpl. now rewrite lookup_empty. }
  split.
  - intros src article_url article_title Hin.
    destruct (fold_process_counts_sources lower urlparse_netloc current_year now
                extract_article summarize_article summary_max_words
                limit_per_source (c :: cs) (mkRun db 0 ∅ [])) as [Hsrc _].
    destruct (Hsrc _ Hin) as [n Hn]. cbn [fst] in Hn. fold st in Hn.
    assert (Hcount : n = handled_count extract_article src (run_log st)).
    { rewrite <- (Hmatch src), Hn. reflexivity. }
    rewrite Hwritten, Hn, <- Hcount. split; [reflexivity|].
    assert (Hok : counters_ok limit_per_source st).
    { apply fold_process_counters. split; [reflexivity|].
      simpl. intros s m. now rewrite lookup_empty. }
    exact (counts_bounded _ _ Hok src n Hn).
  - intros src date _ Hdate. rewrite Hother by exact Hdate. apply Hdb.
Qed.

Lemma collect_writes_source_stats_witness :
  source_stats (snd (fst sample_run)) !! ("Wired", "2025-03-01") = Some (1, 1).
Proof.
  pose proof (collect_writes_source_stats Py.lower Urllib.netloc 2025 0 "2025-03-01"
                sample_extract sample_summarize 100 init_database
                [sample_low; sample_high] 10 eq_refl) as Hstats.
  fold sample_run in Hstats.
  destruct sample_run as [[count db'] log] eqn:Hrun.
  destruct Hstats as [Hstats _].
  destruct (Hstats "Wired" "https://www.wired.com/story/openai-chatgpt-launch-2025/" "")
    as [Hrow _]; [right; now left|].
  assert (Hlog : log = [(sample_high, Extracted); (sample_high, Stored 1);
                        (sample_high, Summarized 1)]).
  { change log with (snd (count, db', log)). rewrite <- Hrun.
    vm_compute. reflexivity. }
  simpl. rewrite Hrow, Hlog. vm_compute. reflexivity.
Defined.

(** X14: a candidate whose url the store already holds is not skipped.
    When it clears the threshold, its source is under the limit, and
    the extractor returns a title and a non-empty content of more than
    100 characters, the run extracts it, gets the stored row's id back
    from [add_article] without adding a row, calls the summarizer again,
    overwrites the stored summary and counts the article as new once
    more. *)
Theorem stored_url_is_summarized_again
    (lower : string -> string)
    (urlparse_netloc : string -> option string) (current_year now : Z)
    (extract_article : string -> string -> ArticleData)
    (summarize_article : string -> string -> Z -> string)
    (summary_max_words limit_per_source : Z) (st : RunState)
    (src article_url article_title : string) (score : Z)
    (breakdown : Breakdown) (row : Article) (text t : string) :
  db_ok (run_db st) ->
  calculate_relevance_score lower urlparse_netloc current_year article_url article_title
    = Some (score, breakdown) ->
  30 <= score ->
  default 0 (processed_by_source st !! src) < limit_per_source ->
  In row (articles (run_db st)) ->
  row_url row = ad_url (extract_article article_url src) ->
  ad_content (extract_article article_url src) = Some text ->
  text <> "" -> 100 < Py.len text ->
  ad_title (extract_article article_url src) = Some t ->
  let c := (src, article_url, article_title) in
  let st' := process_article lower urlparse_netloc current_year now extract_article
               summarize_article summary_max_words limit_per_source st c in
  run_db st'
    = update_article_summary now (run_db st) (row_id row)
        (summarize_article t text summary_max_words) /\
  length (articles (run_db st')) = length (articles (run_db st)) /\
  new_articles_count st' = new_articles_count st + 1 /\
  run_log st'
    = run_log st ++ [(c, Extracted); (c, Stored (row_id row));
                     (c, Summarized (row_id row))].
Proof.
  intros Hok Hscore Hge Hlimit Hin Hurl Hcontent Htext Hlen Htitle. cbv zeta.
  unfold process_article.
  set (st1 := match processed_by_source st !! src with
              | Some _ => st
              | None => _
              end).
  assert (Hst1 : run_db st1 = run_db st /\ run_log st1 = run_log st /\
                 new_articles_count st1 = new_articles_count st /\
                 default 0 (processed_by_source st1 !! src)
                 = default 0 (processed_by_source st !! src)).
  { unfold st1. destruct (processed_by_source st !! src) eqn:Hsrc.
    - now rewrite Hsrc.
    - simpl. now rewrite lookup_insert_eq. }
  destruct Hst1 as (Hdb & Hlog & Hcount & Hpbs). clearbody st1.
  rewrite Hpbs. destruct (Z.leb_spec limit_per_source
                            (default 0 (processed_by_source st !! src)));
    [lia|].
  rewrite Hscore. destruct (Z.ltb_spec score 30); [lia|]. cbv zeta.
  cbn [run_db log_event].
  rewrite Hdb.
  rewrite (add_article_existing now (run_db st) _ row Hok Hin)
    by (simpl; exact Hurl).
  cbn [ad_content ad_title]. rewrite Hcontent, Htitle.
  assert (Hlong : negb (String.eqb text "") && (100 <? Py.len text) = true).
  { apply andb_true_iff. split.
    - apply negb_true_iff, String.eqb_neq. exact Htext.
    - now apply Z.ltb_lt. }
  rewrite Hlong. unfold log_event, count_processed. simpl.
  rewrite Hlog, Hcount, length_fmap, <- !app_assoc. simpl. auto.
Qed.

(** The store after the sample run: it holds [sample_high]'s article. *)
Definition stored_once : NewsDatabase := snd (fst sample_run).

Lemma stored_url_is_summarized_again_witness :
  let st' := process_article Py.lower Urllib.netloc 2025 5000 sample_extract
               sample_summarize 100 10 (mkRun stored_once 0 ∅ []) sample_high in
  length (articles (run_db st')) = length (articles stored_once) /\
  new_articles_count st' = 0 + 1.
Proof.
  assert (Hrow : exists row,
            articles stored_once = [row] /\
            row_url row = "https://www.wired.com/story/openai-chatgpt-launch-2025/" /\
            row_url_hash row = _generate_url_hash (row_url row)).
  { eexists. split; [vm_compute; reflexivity|]. vm_compute. split; reflexivity. }
  destruct Hrow as (row & Hrows & Hurl & Hhash).
  assert (Hok : db_ok stored_once).
  { split; rewrite Hrows.
    - constructor; [exact Hhash|constructor].
    - apply NoDup_singleton.
    - apply NoDup_singleton. }
  destruct (calculate_relevance_score Py.lower Urllib.netloc 2025
              "https://www.wired.com/story/openai-chatgpt-launch-2025/" "")
    as [[score breakdown]|] eqn:Hscore; [|vm_compute in Hscore; discriminate Hscore].
  assert (Hge : 30 <= score).
  { vm_compute in Hscore. injection Hscore as <- _. lia. }
  destruct (stored_url_is_summarized_again Py.lower Urllib.netloc 2025 5000
              sample_extract sample_summarize 100 10 (mkRun stored_once 0 ∅ [])
              "Wired" "https://www.wired.com/story/openai-chatgpt-launch-2025/" ""
              score breakdown row
              "OpenAI has released a new model today. It answers faster, costs less to run and is available to every developer from this week on."
              "OpenAI launches a model")
    as (_ & Hlen & Hcount & _).
  - exact Hok.
  - exact Hscore.
  - exact Hge.
  - simpl. rewrite lookup_empty. simpl. lia.
  - simpl. rewrite Hrows. now left.
  - rewrite Hurl. reflexivity.
  - reflexivity.
  - discriminate.
  - vm_compute. reflexivity.
  - reflexivity.
  - split; [exact Hlen|exact Hcount].
Defined.


(** ** src/main.py: creating the daily digest *)

(** [dict(row)] as the formatter reads it: every column is a key. *)
Definition row_to_dict (row : Article) : DigestArticle :=
  mkDigestArticle (Some (row_title row)) (Some (row_summary row))
    (Some (row_url row)) (Some (row_source row))
    (Some (row_relevance_score row)).

(** What the POST to the messaging API comes to: the API accepted and
    gave a message id, the API refused with a description, or the
    request raised. *)
Inductive PostOutcome : Type :=
| PostOk (message_id : Z)
| PostRefused (description : string)
| PostRaised (text : string).

(** The dict [send_digest] returns. *)
Inductive SendResult : Type :=
| SendOk (message_id : Z) (message : string)
| SendFailed (error : string) (message : string).

(** The dict [create_daily_digest] returns.  Its reason "exception"
    is what it reports when the recording of the post raises. *)
Inductive DigestResult : Type :=
| DigestPosted (message_id : Z) (articles_count : Z)
| DigestNoArticles
| DigestTelegramError (error : string)
| DigestException (error : DbError).

Section DailyDigest.

(** The messaging API, as a function of the text posted. *)
Variable post : string -> PostOutcome.
Variable now : Z.
Variable today : string.

(** [send_digest(articles, use_short_format, date)]: it catches every
    exception and reports it in the dict it returns. *)
Definition send_digest (articles : list DigestArticle) (use_short_format : bool)
    (date : option string) : SendResult :=
  let message := send_digest_message today articles use_short_format date in
  match post message with
  | PostOk message_id => SendOk message_id message
  | PostRefused description => SendFailed description message
  | PostRaised text => SendFailed text message
  end.

(** [create_daily_digest(date)] with [self.max_articles] passed in, a
    number that fits 64 bits: the dict returned and the digest history
    afterwards.  A digest already recorded for the date does not stop
    the function. *)
Definition create_daily_digest (max_articles : Z) (db : NewsDatabase)
    (tbl : DigestPosts) (date : option string) : DigestResult * DigestPosts :=
  let date := date_or_today today date in
  let top := get_top_articles now db 1 max_articles in
  match top with
  | [] => (DigestNoArticles, tbl)
  | _ =>
      match send_digest (row_to_dict <$> top) false (Some date) with
      | SendOk message_id _ =>
          let article_ids := row_id <$> top in
          match record_digest_post now today tbl article_ids (Some message_id)
                  (Some date) with
          | inr tbl' =>
              (DigestPosted message_id (Z.of_nat (length top)), tbl')
          | inl error => (DigestException error, tbl)
          end
      | SendFailed error _ => (DigestTelegramError error, tbl)
      end
  end.

End DailyDigest.

Lemma date_or_today_idem today date :
  date_or_today today (Some (date_or_today today date)) = date_or_today today date.
Proof.
  unfold date_or_today. destruct date as [d|].
  - destruct (String.eqb_spec d ""); [|destruct (String.eqb_spec d ""); congruence].
    now destruct (String.eqb today "").
  - now destruct (String.eqb today "").
Qed.

Lemma record_digest_post_found now today tbl article_ids message_id date tbl' :
  record_digest_post now today tbl article_ids message_id date = inr tbl' ->
  exists p,
    digest_for_date tbl' (date_or_today today date) = Some p
    /\ post_article_ids p = article_ids
    /\ post_telegram_message_id p = message_id
    /\ post_date p = date_or_today today date.
Proof.
  intros Hrec. apply record_digest_post_inv in Hrec. subst tbl'.
  unfold digest_for_date. simpl posts.
  eexists. split.
  - apply find_app_not.
    + apply (find_filter_out (fun q => String.eqb (post_date q) (date_or_today today date))).
    + apply String.eqb_refl.
  - auto.
Qed.

(** X15: the digest history changes only when the post succeeded and
    was recorded.  For a date in the form YYYY-MM-DD, a maximum that
    fits 64 bits and a time whose day and the day before lie in the
    years 0000 to 9999: with no summarized article in the last day the result
    is "no articles" and nothing is posted or recorded; when the API
    refuses or the request raises, the result carries the error and the
    history is as before; when the recording raises, the message was
    posted and the history is as before; on success the row recorded for
    the date holds the message id and the ids of all the articles
    selected, in ranking order.  The message posted is the long format
    of the selected articles, its header, the blocks of the first ten at
    most and the footer, or the short format with the first eight at
    most. *)
Theorem create_daily_digest_records_on_success
    (post : string -> PostOutcome) (now : Z) (today : string)
    (max_articles : Z) (db : NewsDatabase) (tbl : DigestPosts)
    (date : option string) :
  let top := get_top_articles now db 1 max_articles in
  let d := date_or_today today date in
  let shown := row_to_dict <$> top in
  let message := send_digest_message today shown false (Some d) in
  is_iso_date d = true ->
  fits_int64 max_articles = true ->
  in_sqlite_range now = true ->
  in_sqlite_range (date_minus_days now 1) = true ->
  (message = long_header d shown +:+ String.concat "" (long_items shown) +:+ footer
   \/ message = short_header d +:+ String.concat "" (short_items shown) +:+ footer) /\
  length (long_items shown) = Nat.min 10 (length top) /\
  length (short_items shown) = Nat.min 8 (length top) /\
  match create_daily_digest post now today max_articles db tbl date with
  | (DigestNoArticles, tbl') => top = [] /\ tbl' = tbl
  | (DigestTelegramError error, tbl') =>
      top <> [] /\ tbl' = tbl /\
      (post message = PostRefused error \/ post message = PostRaised error)
  | (DigestException error, tbl') =>
      top <> [] /\ tbl' = tbl /\
      exists message_id,
        post message = PostOk message_id /\
        record_digest_post now today tbl (row_id <$> top) (Some message_id) (Some d)
        = inl error
  | (DigestPosted message_id articles_count, tbl') =>
      top <> [] /\ post message = PostOk message_id /\
      articles_count = Z.of_nat (length top) /\
      record_digest_post now today tbl (row_id <$> top) (Some message_id) (Some d)
      = inr tbl' /\
      has_digest_for_date today tbl' (Some d) = true /\
      (exists p, digest_for_date tbl' d = Some p
                 /\ post_article_ids p = row_id <$> top
                 /\ post_telegram_message_id p = Some message_id)
  end.
Proof.
  cbv zeta. intros _ _ _ _.
  assert (Hd : date_or_today today (Some (date_or_today today date))
               = date_or_today today date) by apply date_or_today_idem.
  split; [|split; [|split]].
  - unfold send_digest_message. destruct (3800 <? _).
    + right. now rewrite format_short_digest_items, Hd.
    + left. now rewrite format_digest_message_items, Hd.
  - unfold long_items. now rewrite items_from_length, length_take, length_fmap.
  - unfold short_items. now rewrite items_from_length, length_take, length_fmap.
  - unfold create_daily_digest, send_digest.
    destruct (get_top_articles now db 1 max_articles) as [|r rs] eqn:Htop;
      [now split|].
    set (top := r :: rs).
    set (d := date_or_today today date) in *.
    set (message := send_digest_message today (row_to_dict <$> top) false (Some d)).
    destruct (post message) as [message_id|description|text] eqn:Hpost.
    + destruct (record_digest_post now today tbl (row_id <$> top)
                  (Some message_id) (Some d)) as [error|tbl'] eqn:Hrec.
      * split; [discriminate|]. split; [reflexivity|]. now exists message_id.
      * split; [discriminate|]. split; [reflexivity|]. split; [reflexivity|].
        split; [exact Hrec|].
        destruct (record_digest_post_found _ _ _ _ _ _ _ Hrec)
          as (p & Hfind & Hids & Hmid & Hdate).
        rewrite Hd in Hfind.
        split.
        -- unfold has_digest_for_date. rewrite Hd. unfold digest_for_date in Hfind.
           apply List.find_some in Hfind as [Hin Heq].
           apply existsb_exists. exists p. auto.
        -- exists p. auto.
    + split; [discriminate|]. auto.
    + split; [discriminate|]. auto.
Qed.

(** A day with one summarized article and an API that accepts. *)
Definition sample_digest_store : NewsDatabase :=
  update_article_summary 1740787260
    (with_new_row 1740787200 init_database sample_article) 1 "A summary.".

Lemma create_daily_digest_records_on_success_witness :
  create_daily_digest (fun _ => PostOk 77) 1740790800 "2025-03-01" 15
    sample_digest_store no_posts None
  = (DigestPosted 77 1, mkPosts [mkPost 1 "2025-03-01" [1] (Some 77) 1740790800] 1)
  /\ length (long_items (row_to_dict <$>
                get_top_articles 1740790800 sample_digest_store 1 15)) = 1%nat.
Proof.
  split; [vm_compute; reflexivity|].
  destruct (create_daily_digest_records_on_success (fun _ => PostOk 77) 1740790800
              "2025-03-01" 15 sample_digest_store no_posts None eq_refl eq_refl
              eq_refl eq_refl)
    as (_ & Hlong & _).
  exact Hlong.
Defined.


(** ** More on the digest message: lengths *)

Lemma len_nonneg (s : string) : 0 <= Py.len s.
Proof.
  induction s as [|c s IH]; simpl; [lia|].
  destruct (Py.is_continuation c); lia.
Qed.

Lemma len_append (s1 s2 : string) : Py.len (s1 +:+ s2) = Py.len s1 + Py.len s2.
Proof.
  induction s1 as [|c s1 IH]; [reflexivity|].
  change (Py.len (String c (s1 +:+ s2)) = Py.len (String c s1) + Py.len s2).
  cbn [Py.len]. rewrite IH. lia.
Qed.

Lemma len_skip_continuation (s : string) :
  Py.len (fst (Py.skip_continuation s)) = 0.
Proof.
  induction s as [|c s IH]; [reflexivity|].
  cbn [Py.skip_continuation].
  destruct (Py.is_continuation c) eqn:Hc; [|reflexivity].
  destruct (Py.skip_continuation s) as [cs r]. simpl in *. now rewrite Hc.
Qed.

Lemma len_take_chars (k : nat) : forall s, Py.len (Py.take_chars k s) <= Z.of_nat k.
Proof.
  induction k as [|k IH]; intros s; [simpl; lia|].
  destruct s as [|c rest]; [simpl; lia|].
  cbn [Py.take_chars].
  pose proof (len_skip_continuation rest) as Hskip.
  destruct (Py.skip_continuation rest) as [cs r]. simpl in Hskip.
  cbn [Py.len]. rewrite len_append, Hskip. specialize (IH r).
  destruct (Py.is_continuation c); lia.
Qed.

Lemma len_slice_to (s : string) (k : Z) : 0 <= k -> Py.len (Py.slice_to s k) <= k.
Proof.
  intros Hk. unfold Py.slice_to.
  pose proof (len_take_chars (Z.to_nat k) s). lia.
Qed.

Lemma rfind_dot_from_bound : forall s i last,
  Py.rfind_dot_from i s last <= Z.max last (i + Py.len s - 1).
Proof.
  induction s as [|c s IH]; intros i last; cbn [Py.rfind_dot_from Py.len]; [lia|].
  pose proof (len_nonneg s).
  destruct (Py.is_continuation c).
  - specialize (IH i last). lia.
  - specialize (IH (i + 1) (if Ascii.eqb c "." then i else last)).
    destruct (Ascii.eqb c "."); lia.
Qed.

(** The title as the long format shows it. *)
Lemma long_title_bound (t : string) :
  Py.len (if 60 <? Py.len t then Py.slice_to t 57 +:+ "..." else t) <= 60.
Proof.
  destruct (Z.ltb_spec 60 (Py.len t)); [|lia].
  rewrite len_append. pose proof (len_slice_to t 57 ltac:(lia)).
  change (Py.len "...") with 3. lia.
Qed.

Lemma long_summary_bound (s : string) :
  Py.len (if 150 <? Py.len s then Py.slice_to s 147 +:+ "..." else s) <= 150.
Proof.
  destruct (Z.ltb_spec 150 (Py.len s)); [|lia].
  rewrite len_append. pose proof (len_slice_to s 147 ltac:(lia)).
  change (Py.len "...") with 3. lia.
Qed.

Lemma short_title_bound (t : string) :
  Py.len (if 45 <? Py.len t then Py.slice_to t 42 +:+ "..." else t) <= 45.
Proof.
  destruct (Z.ltb_spec 45 (Py.len t)); [|lia].
  rewrite len_append. pose proof (len_slice_to t 42 ltac:(lia)).
  change (Py.len "...") with 3. lia.
Qed.

Lemma short_summary_bound (s : string) :
  Py.len (if 120 <? Py.len s then
            if 80 <? Py.rfind_dot (Py.slice_to s 120)
            then Py.slice_to s (Py.rfind_dot (Py.slice_to s 120) + 1)
            else Py.slice_to s 120 +:+ "..."
          else s) <= 123.
Proof.
  destruct (Z.ltb_spec 120 (Py.len s)); [|lia].
  pose proof (len_slice_to s 120 ltac:(lia)) as Hcut.
  destruct (Z.ltb_spec 80 (Py.rfind_dot (Py.slice_to s 120))) as [Hdot|_].
  - pose proof (rfind_dot_from_bound (Py.slice_to s 120) 0 (-1)) as Hr.
    fold (Py.rfind_dot (Py.slice_to s 120)) in Hr.
    pose proof (len_slice_to s (Py.rfind_dot (Py.slice_to s 120) + 1) ltac:(lia)).
    lia.
  - rewrite len_append. change (Py.len "...") with 3. lia.
Qed.

(** Every literal length in the goal, computed. *)
Ltac literal_lengths :=
  repeat match goal with
         | |- context [Py.len (String ?c ?r)] =>
             let v := eval vm_compute in (Py.len (String c r)) in
             change (Py.len (String c r)) with v
         end;
  change (Py.len nl) with 1.

(** X16: the long format truncates title and summary, so one rendered
    article is at most 261 characters longer than its rank, source,
    score and url taken together (51 of template, 60 of title, 150 of
    summary). *)
Theorem long_item_length_bound (i : Z) (article : DigestArticle) :
  Py.len (long_item i article)
  <= Py.len (Py.str_of_int i)
     + Py.len (default "Неизвестно" (da_source article))
     + Py.len (Py.str_of_int (default 0 (da_relevance_score article)))
     + Py.len (default "" (da_url article))
     + 261.
Proof.
  unfold long_item. cbv zeta.
  pose proof (long_title_bound (default "Без заголовка" (da_title article))).
  pose proof (long_summary_bound (default "Резюме недоступно" (da_summary article))).
  rewrite !len_append. literal_lengths. lia.
Qed.

(** X17: in the short format one rendered article is at most 197
    characters longer than its rank, source and url together: 29 of
    template, 45 of title and up to 123 of summary, the 120-character
    cut plus the three dots. *)
Theorem short_item_length_bound (i : Z) (article : DigestArticle) :
  Py.len (short_item i article)
  <= Py.len (Py.str_of_int i)
     + Py.len (default "Неизвестно" (da_source article))
     + Py.len (default "" (da_url article))
     + 197.
Proof.
  unfold short_item. cbv zeta.
  pose proof (short_title_bound (default "Без заголовка" (da_title article))).
  pose proof (short_summary_bound (default "Резюме недоступно" (da_summary article))).
  rewrite !len_append. literal_lengths. lia.
Qed.

(** A summary of 130 characters without a full stop is shown with 123. *)
Example short_summary_reaches_123 :
  let article :=
    mkDigestArticle (Some "T")
      (Some "aaaaaaaaaaaaaaaaaaaaaaaaaaaaaaaaaaaaaaaaaaaaaaaaaaaaaaaaaaaaaaaaaaaaaaaaaaaaaaaaaaaaaaaaaaaaaaaaaaaaaaaaaaaaaaaaaaaaaaaaaaaaaaaaaa")
      (Some "") (Some "") None in
  Py.len (short_item 1 article) = 1 + 0 + 0 + 29 + 1 + 123.
Proof. vm_compute. reflexivity. Qed.


(** ** multi_source_ai_digest.py: the source extractors *)

(** [re.search(r'/202[4-5]/', link)]. *)
Definition has_year_segment (link : string) : bool :=
  Py.str_in "/2024/" link || Py.str_in "/2025/" link.

Section Sources.

(** The links [extract_links] found on the page fetched at an address;
    [None] when fetching or decoding raised, which each extractor
    catches and answers with the empty list. *)
Variable fetched_links : string -> option (list string).

(** The order in which [for link in set(article_links)] visits the
    distinct links: some arrangement of them. *)
Variable set_order : list string -> list string.

Definition extract_techcrunch_ai : list Candidate :=
  match fetched_links "https://techcrunch.com/tag/ai/" with
  | None => []
  | Some all_links =>
      let article_links := List.filter has_year_segment all_links in
      (fun link =>
         let full_url :=
           if String.prefix "/" link then "https://techcrunch.com" +:+ link
           else link in
         ("TechCrunch", full_url, ""))
      <$> set_order article_links
  end.

Definition extract_wired_ai : list Candidate :=
  match fetched_links "https://www.wired.com/tag/artificial-intelligence/" with
  | None => []
  | Some all_links =>
      let article_links :=
        List.filter (fun link => Py.str_in "/story/" link || Py.str_in "/gallery/" link)
          all_links in
      omap (fun link =>
              if String.prefix "/" link
              then Some ("Wired", "https://www.wired.com" +:+ link, "")
              else if String.prefix "https://www.wired.com" link
              then Some ("Wired", link, "")
              else None)
        (set_order article_links)
  end.

Definition extract_verge_ai : list Candidate :=
  match fetched_links "https://www.theverge.com/ai-artificial-intelligence" with
  | None => []
  | Some all_links =>
      let article_links := List.filter has_year_segment all_links in
      omap (fun link =>
              if String.prefix "/" link
              then Some ("The Verge", "https://www.theverge.com" +:+ link, "")
              else if String.prefix "https://www.theverge.com" link
              then Some ("The Verge", link, "")
              else None)
        (set_order article_links)
  end.

Definition extract_venturebeat_ai : list Candidate :=
  match fetched_links "https://venturebeat.com/ai/" with
  | None => []
  | Some all_links =>
      let article_links :=
        List.filter (fun link => Py.str_in "venturebeat.com" link && Py.str_in "/ai/" link)
          all_links in
      omap (fun link =>
              if String.prefix "https://venturebeat.com" link
              then Some ("VentureBeat", link, "") else None)
        (set_order article_links)
  end.

Definition extract_mit_tech_review_ai : list Candidate :=
  match fetched_links "https://www.technologyreview.com/topic/artificial-intelligence/" with
  | None => []
  | Some all_links =>
      let article_links :=
        List.filter (fun link => Py.str_in "technologyreview.com" link && Py.str_in "/202" link)
          all_links in
      omap (fun link =>
              if String.prefix "https://www.technologyreview.com" link
              then Some ("MIT Tech Review", link, "") else None)
        (set_order article_links)
  end.

Definition extract_ars_technica_ai : list Candidate :=
  match fetched_links "https://arstechnica.com/information-technology/artificial-intelligence/" with
  | None => []
  | Some all_links =>
      let article_links :=
        List.filter (fun link => Py.str_in "arstechnica.com" link && Py.str_in "/202" link)
          all_links in
      omap (fun link =>
              if String.prefix "https://arstechnica.com" link
              then Some ("Ars Technica", link, "") else None)
        (set_order article_links)
  end.

Definition extract_zdnet_ai : list Candidate :=
  match fetched_links "https://www.zdnet.com/topic/artificial-intelligence/" with
  | None => []
  | Some all_links =>
      let article_links :=
        List.filter (fun link =>
                       Py.str_in "zdnet.com" link
                       && (Py.str_in "/article/" link || Py.str_in "/story/" link))
          all_links in
      omap (fun link =>
              if String.prefix "https://www.zdnet.com" link
              then Some ("ZDNet", link, "") else None)
        (set_order article_links)
  end.

Definition extract_forbes_ai : list Candidate :=
  match fetched_links "https://www.forbes.com/ai/" with
  | None => []
  | Some all_links =>
      let article_links :=
        List.filter (fun link => Py.str_in "forbes.com" link && Py.str_in "/sites/" link)
          all_links in
      omap (fun link =>
              if String.prefix "https://www.forbes.com" link
              then Some ("Forbes", link, "") else None)
        (set_order article_links)
  end.

Definition extract_bloomberg_ai : list Candidate :=
  match fetched_links "https://www.bloomberg.com/topics/artificial-intelligence" with
  | None => []
  | Some all_links =>
      let article_links :=
        List.filter (fun link => Py.str_in "bloomberg.com" link && Py.str_in "/news/" link)
          all_links in
      omap (fun link =>
              if String.prefix "https://www.bloomberg.com" link
              then Some ("Bloomberg", link, "") else None)
        (set_order article_links)
  end.

(** [fetch_all_ai_sources()]: the nine extractors in their fixed
    order, each result appended to [all_articles]. *)
Definition fetch_all_ai_sources : list Candidate :=
  extract_techcrunch_ai ++ extract_wired_ai ++ extract_verge_ai
  ++ extract_venturebeat_ai ++ extract_mit_tech_review_ai
  ++ extract_ars_technica_ai ++ extract_zdnet_ai ++ extract_forbes_ai
  ++ extract_bloomberg_ai.

End Sources.

(** The site each source other than TechCrunch keeps its links to. *)
Definition source_sites : list (string * string) :=
  [ ("Wired", "https://www.wired.com");
    ("The Verge", "https://www.theverge.com");
    ("VentureBeat", "https://venturebeat.com");
    ("MIT Tech Review", "https://www.technologyreview.com");
    ("Ars Technica", "https://arstechnica.com");
    ("ZDNet", "https://www.zdnet.com");
    ("Forbes", "https://www.forbes.com");
    ("Bloomberg", "https://www.bloomberg.com") ].

(** ** Properties of the source extractors *)

Lemma str_in_append_r (needle p s : string) :
  Py.str_in needle s = true -> Py.str_in needle (p +:+ s) = true.
Proof.
  intros Hs. induction p as [|c p IH]; [exact Hs|].
  change (Py.str_in needle (String c (p +:+ s)) = true).
  cbn [Py.str_in]. rewrite IH. apply orb_true_r.
Qed.

Lemma In_omap {A B} (f : A -> option B) (l : list A) (y : B) :
  In y (omap f l) -> exists x, In x l /\ f x = Some y.
Proof.
  induction l as [|x l IH]; simpl; [contradiction|].
  destruct (f x) as [y'|] eqn:Hx.
  - intros [<-|Hin]; [exists x; auto|].
    destruct (IH Hin) as (x' & Hx' & Hy). exists x'. auto.
  - intros Hin. destruct (IH Hin) as (x' & Hx' & Hy). exists x'. auto.
Qed.

(** A tuple of a source that keeps to its own site. *)
Definition on_own_site (c : Candidate) : Prop :=
  snd c = "" /\
  exists site, In (fst (fst c), site) source_sites
               /\ String.prefix site (snd (fst c)) = true.

Ltac own_site_case Hc :=
  apply In_omap in Hc as (?link & _ & Hc);
  repeat match type of Hc with
         | (if ?b then _ else _) = Some _ =>
             let Hb := fresh "Hb" in destruct b eqn:Hb
         end;
  try discriminate Hc;
  injection Hc as <-;
  (split; [reflexivity|]);
  eexists; (split; [cbn; eauto 10|]);
  first [ apply prefix_append | eassumption ].

(** X18: what [fetch_all_ai_sources] yields.  Every tuple has an empty
    title.  A tuple of a source other than TechCrunch has a url on that
    source's own site (relative links are completed, foreign links
    dropped).  A TechCrunch tuple has a url with a "/2024/" or "/2025/"
    segment, on whatever site: absolute links are passed on as found. *)
Theorem fetched_candidates_shape
    (fetched_links : string -> option (list string))
    (set_order : list string -> list string) (c : Candidate) :
  (forall l x, In x (set_order l) -> In x l) ->
  In c (fetch_all_ai_sources fetched_links set_order) ->
  (fst (fst c) = "TechCrunch" /\ snd c = ""
   /\ has_year_segment (snd (fst c)) = true)
  \/ on_own_site c.
Proof.
  intros Hset Hc. unfold fetch_all_ai_sources in Hc.
  rewrite !in_app_iff in Hc.
  destruct Hc as [Hc|[Hc|[Hc|[Hc|[Hc|[Hc|[Hc|[Hc|Hc]]]]]]]].
  - left. unfold extract_techcrunch_ai in Hc.
    destruct (fetched_links _) as [all_links|]; [|contradiction].
    apply list_elem_of_In, list_elem_of_fmap in Hc as (link & -> & Hlink).
    apply list_elem_of_In, Hset, List.filter_In in Hlink as [_ Hyear].
    simpl. split; [reflexivity|]. split; [reflexivity|].
    destruct (String.prefix "/" link); [|exact Hyear].
    unfold has_year_segment in *. apply orb_true_iff in Hyear as [Hy|Hy].
    + apply orb_true_iff. left. now apply str_in_append_r.
    + apply orb_true_iff. right. now apply str_in_append_r.
  - right. unfold extract_wired_ai in Hc.
    destruct (fetched_links _); [|contradiction]. own_site_case Hc.
  - right. unfold extract_verge_ai in Hc.
    destruct (fetched_links _); [|contradiction]. own_site_case Hc.
  - right. unfold extract_venturebeat_ai in Hc.
    destruct (fetched_links _); [|contradiction]. own_site_case Hc.
  - right. unfold extract_mit_tech_review_ai in Hc.
    destruct (fetched_links _); [|contradiction]. own_site_case Hc.
  - right. unfold extract_ars_technica_ai in Hc.
    destruct (fetched_links _); [|contradiction]. own_site_case Hc.
  - right. unfold extract_zdnet_ai in Hc.
    destruct (fetched_links _); [|contradiction]. own_site_case Hc.
  - right. unfold extract_forbes_ai in Hc.
    destruct (fetched_links _); [|contradiction]. own_site_case Hc.
  - right. unfold extract_bloomberg_ai in Hc.
    destruct (fetched_links _); [|contradiction]. own_site_case Hc.
Qed.

(** Two pages that link to the same article of The Verge, the first
    both with a relative and an absolute link to one of its own. *)
Definition sample_pages (address : string) : option (list string) :=
  if String.eqb address "https://techcrunch.com/tag/ai/"
  then Some [ "/2025/01/02/openai-launch/";
              "https://techcrunch.com/2025/01/02/openai-launch/";
              "/tag/ai/";
              "https://www.theverge.com/2025/1/2/gemini" ]
  else if String.eqb address "https://www.theverge.com/ai-artificial-intelligence"
  then Some [ "/2025/1/2/gemini"; "https://example.org/2025/ad" ]
  else None.

Example fetch_all_ai_sources_sample :
  fetch_all_ai_sources sample_pages remove_dups =
  [ ("TechCrunch", "https://techcrunch.com/2025/01/02/openai-launch/", "");
    ("TechCrunch", "https://techcrunch.com/2025/01/02/openai-launch/", "");
    ("TechCrunch", "https://www.theverge.com/2025/1/2/gemini", "");
    ("The Verge", "https://www.theverge.com/2025/1/2/gemini", "") ].
Proof. vm_compute. reflexivity. Qed.

Lemma fetched_candidates_shape_witness :
  (fst (fst ("TechCrunch", "https://www.theverge.com/2025/1/2/gemini", ""))
     = "TechCrunch"
   /\ snd ("TechCrunch", "https://www.theverge.com/2025/1/2/gemini", "") = ""
   /\ has_year_segment
        (snd (fst ("TechCrunch", "https://www.theverge.com/2025/1/2/gemini", "")))
      = true)
  \/ on_own_site ("TechCrunch", "https://www.theverge.com/2025/1/2/gemini", "").
Proof.
  apply (fetched_candidates_shape sample_pages remove_dups).
  - intros l x Hx. apply list_elem_of_In. apply list_elem_of_In in Hx.
    rewrite elem_of_remove_dups in Hx. exact Hx.
  - vm_compute. auto.
Defined.


(** ** filter_links.py *)

(** [not links]: the list is empty. *)
Definition is_empty {A} (l : list A) : bool :=
  match l with
  | [] => true
  | _ => false
  end.

Section LinkFilters.

(** [s.lower()], as in the scorer. *)
Variable lower : string -> string.

(** [filter_links_by_substring(links, substring, case_sensitive, exact_match)]. *)
Definition filter_links_by_substring (links : list string) (substring : string)
    (case_sensitive exact_match : bool) : list string :=
  if is_empty links || String.eqb substring "" then []
  else
    let search_string := if case_sensitive then substring else lower substring in
    List.filter
      (fun link =>
         let compare_link := if case_sensitive then link else lower link in
         if exact_match then String.eqb compare_link search_string
         else Py.str_in search_string compare_link)
      links.

(** [filter_links_by_multiple_substrings(links, substrings, case_sensitive, match_all)]. *)
Definition filter_links_by_multiple_substrings (links substrings : list string)
    (case_sensitive match_all : bool) : list string :=
  if is_empty links || is_empty substrings then []
  else
    List.filter
      (fun link =>
         let compare_link := if case_sensitive then link else lower link in
         let search_strings :=
           if case_sensitive then substrings else lower <$> substrings in
         if match_all
         then forallb (fun substring => Py.str_in substring compare_link) search_strings
         else existsb (fun substring => Py.str_in substring compare_link) search_strings)
      links.

(** [filter_links_by_domain(links, domain, include)]. *)
Definition filter_links_by_domain (links : list string) (dom : string)
    (include : bool) : list string :=
  if is_empty links || String.eqb dom "" then []
  else
    let domain_lower := lower dom in
    List.filter
      (fun link =>
         let link_lower := lower link in
         let has_domain := Py.str_in domain_lower link_lower in
         if include && has_domain then true
         else if negb include && negb has_domain then true
         else false)
      links.

End LinkFilters.

(** ** Properties of the link filters *)

Lemma filter_sublist_of {A} (f : A -> bool) (l : list A) :
  List.filter f l `sublist_of` l.
Proof.
  induction l as [|x l IH]; simpl; [constructor|].
  destruct (f x); now constructor.
Qed.

Lemma filter_sublist_impl {A} (f g : A -> bool) (l : list A) :
  (forall x, f x = true -> g x = true) ->
  List.filter f l `sublist_of` List.filter g l.
Proof.
  intros Hfg. induction l as [|x l IH]; simpl; [constructor|].
  destruct (f x) eqn:Hf.
  - rewrite (Hfg x Hf). now constructor.
  - destruct (g x); [now constructor|exact IH].
Qed.

Lemma prefix_refl (s : string) : String.prefix s s = true.
Proof.
  induction s as [|c s IH]; [reflexivity|]. simpl.
  destruct (ascii_dec c c); [exact IH|congruence].
Qed.

Lemma str_in_refl (s : string) : Py.str_in s s = true.
Proof.
  destruct s as [|c s]; [reflexivity|].
  cbn [Py.str_in]. now rewrite prefix_refl.
Qed.

(** X19: [filter_links_by_substring] only selects: its result is a
    sub-sequence of the links in their order, and exact matching
    selects no more than substring matching. *)
Theorem filter_links_by_substring_selects
    (lower : string -> string)
    (links : list string) (substring : string) (case_sensitive exact_match : bool) :
  filter_links_by_substring lower links substring case_sensitive exact_match
    `sublist_of` links /\
  filter_links_by_substring lower links substring case_sensitive true
    `sublist_of` filter_links_by_substring lower links substring case_sensitive false.
Proof.
  unfold filter_links_by_substring.
  destruct (is_empty links || String.eqb substring "");
    [split; apply sublist_nil_l|].
  cbv zeta. split; [apply filter_sublist_of|].
  apply filter_sublist_impl. intros link Heq.
  apply String.eqb_eq in Heq. rewrite Heq. apply str_in_refl.
Qed.

Lemma filter_all_true {A} (f : A -> bool) (l : list A) :
  (forall x, f x = true) -> List.filter f l = l.
Proof.
  intros Hf. induction l as [|x l IH]; [reflexivity|].
  cbn [List.filter]. now rewrite Hf, IH.
Qed.

(** X20: an empty substring or domain selects nothing, although the
    empty string occurs in every link; this holds for exclusion too,
    which then returns no link at all.  A list that holds the empty
    substring selects every link, the lower-cased empty string being
    empty. *)
Theorem empty_pattern_selects_nothing
    (lower : string -> string)
    (links : list string) (case_sensitive exact_match include match_all : bool) :
  filter_links_by_substring lower links "" case_sensitive exact_match = [] /\
  filter_links_by_domain lower links "" include = [] /\
  filter_links_by_multiple_substrings lower links [] case_sensitive match_all = [] /\
  (lower "" = "" -> links <> [] ->
   filter_links_by_multiple_substrings lower links [""] case_sensitive match_all
   = links).
Proof.
  unfold filter_links_by_substring, filter_links_by_domain,
    filter_links_by_multiple_substrings.
  rewrite !orb_true_r. repeat split.
  intros Hlower Hne. destruct links as [|l0 links]; [contradiction|].
  cbn [is_empty orb].
  assert (Hall : forall s, Py.str_in "" s = true) by (intros s; now destruct s).
  apply filter_all_true. intros link. cbv zeta.
  destruct case_sensitive, match_all; simpl; rewrite ?Hlower; now rewrite Hall.
Qed.

Lemma empty_pattern_selects_nothing_witness :
  filter_links_by_multiple_substrings Py.lower ["https://a/"; "https://b/"] [""]
    false true
  = ["https://a/"; "https://b/"].
Proof.
  apply (empty_pattern_selects_nothing Py.lower ["https://a/"; "https://b/"]
           false false true true).
  - reflexivity.
  - discriminate.
Defined.

Lemma filter_split_length {A} (f : A -> bool) (l : list A) :
  (length (List.filter f l) + length (List.filter (fun x => negb (f x)) l)
   = length l)%nat.
Proof.
  induction l as [|x l IH]; [reflexivity|].
  cbn [List.filter]. destruct (f x); simpl; lia.
Qed.

(** X21: filtering by domain with inclusion is filtering by substring,
    case-insensitive; inclusion and exclusion split the links: every
    link is in exactly one of the two results when the domain is not
    empty. *)
Theorem filter_links_by_domain_splits
    (lower : string -> string) (links : list string) (dom : string) :
  filter_links_by_domain lower links dom true
    = filter_links_by_substring lower links dom false false /\
  (dom <> "" ->
   forall link, In link links ->
     (In link (filter_links_by_domain lower links dom true)
      <-> ~ In link (filter_links_by_domain lower links dom false)) /\
     (length (filter_links_by_domain lower links dom true)
      + length (filter_links_by_domain lower links dom false) = length links)%nat).
Proof.
  unfold filter_links_by_domain, filter_links_by_substring. split.
  - destruct (is_empty links || String.eqb dom ""); [reflexivity|].
    cbv zeta. induction links as [|x l IH]; [reflexivity|].
    cbn [List.filter]. rewrite IH.
    now destruct (Py.str_in (lower dom) (lower x)).
  - intros Hdom link Hin.
    destruct links as [|l0 links]; [contradiction|].
    destruct (String.eqb_spec dom ""); [contradiction|].
    cbn [is_empty orb]. cbv zeta.
    set (has := fun l : string => Py.str_in (lower dom) (lower l)).
    rewrite (List.filter_ext _ has)
      by (intros l; unfold has; now destruct (Py.str_in _ _)).
    rewrite (List.filter_ext
               (fun l : string =>
                  if false && Py.str_in (lower dom) (lower l) then true
                  else if negb false && negb (Py.str_in (lower dom) (lower l))
                  then true else false)
               (fun l => negb (has l)))
      by (intros l; unfold has; now destruct (Py.str_in _ _)).
    split.
    + rewrite !List.filter_In. destruct (has link); simpl; intuition discriminate.
    + apply filter_split_length.
Qed.

Lemma filter_links_by_domain_splits_witness :
  (length (filter_links_by_domain Py.lower
             ["https://TechCrunch.com/a"; "https://wired.com/b"] "techcrunch.com" true)
   + length (filter_links_by_domain Py.lower
               ["https://TechCrunch.com/a"; "https://wired.com/b"] "techcrunch.com" false)
   = length ["https://TechCrunch.com/a"; "https://wired.com/b"])%nat.
Proof.
  apply (proj2 (filter_links_by_domain_splits Py.lower
                  ["https://TechCrunch.com/a"; "https://wired.com/b"]
                  "techcrunch.com")
           ltac:(discriminate) "https://wired.com/b").
  simpl. auto.
Defined.
